(** * Thermostat.py: the thermostat state machine, its indicator lights,
      the display loop and the status line sent over the serial port.

    The development follows src/Thermostat.py.  The class
    [TemperatureMachine] and the module-level hardware handles
    ([thSensor], [redLight], [blueLight], [screen], [ser]) become one
    record [Machine]; every method becomes a computation in a small
    state-and-exception monad [M].  An exception leaves the mutations
    made before it in place, as in Python.

    Python floats are Rocq's primitive binary64 floats, Python ints are
    [Z], strings are [string].  The sensor, the serial port, the clock
    and the other threads are oracles ([Hardware]); the commands that
    reach the LEDs, the display and the serial port are logged with a
    time stamp, and what [print] writes goes to [stdout].  The button
    callbacks and the interrupt handler run while the display thread is
    in [sleep(1)]; the section on the two threads looks inside one
    statement of the display thread. *)

From Stdlib Require Import ZArith List String Ascii Bool Lia.
From Stdlib Require Import PrimFloat FloatOps SpecFloat.
From Stdlib Require Import Decimal DecimalString.
Import ListNotations.

Set Warnings "-inexact-float".
Local Open Scope string_scope.
Local Open Scope Z_scope.

(** ** Python values *)

(** [str(n)] for an int. *)
Definition str (n : Z) : string := NilZero.string_of_int (Z.to_int n).

Inductive Exn : Type :=
| OSError              (* the I2C read of the sensor failed *)
| SerialException      (* ser.write failed *)
| ValueError           (* floor of a NaN *)
| OverflowError        (* floor of an infinity *)
| TransitionNotAllowed (* send: no transition from the current state *).

Module PyFloat.

(** The integer whose sign bit is [s] and magnitude [m]. *)
Definition signed (s : bool) (m : positive) : Z :=
  if s then Z.neg m else Z.pos m.

(** [math.floor(x)]: the float is [signed s m * 2^e]; shifting by a
    negative amount divides rounding down. *)
Definition floor (x : float) : Exn + Z :=
  match Prim2SF x with
  | S754_zero _ => inr 0
  | S754_finite s m e => inr (Z.shiftl (signed s m) e)
  | S754_infinity _ => inl OverflowError
  | S754_nan => inl ValueError
  end.

(** Nearest integer to [num / den], ties to the even one
    ([0 <= num], [0 < den]). *)
Definition round_half_even (num den : Z) : Z :=
  let q := num / den in
  let r := num mod den in
  match 2 * r ?= den with
  | Lt => q
  | Gt => q + 1
  | Eq => if Z.even q then q else q + 1
  end.

(** [|x| * 10] rounded to an integer, for [|x| = m * 2^e]. *)
Definition tenths (m : positive) (e : Z) : Z :=
  if 0 <=? e then 10 * Z.pos m * 2 ^ e
  else round_half_even (10 * Z.pos m) (2 ^ (- e)).

Definition sign_str (s : bool) : string := if s then "-" else "".

(** [f"{x:0.1f}"]: the exact value of the float, correctly rounded to
    one digit after the point. *)
Definition format_1f (x : float) : string :=
  match Prim2SF x with
  | S754_nan => "nan"
  | S754_infinity s => sign_str s ++ "inf"
  | S754_zero s => sign_str s ++ "0.0"
  | S754_finite s m e =>
      let n := tenths m e in
      sign_str s ++ str (n / 10) ++ "." ++ str (n mod 10)
  end.

End PyFloat.

(** ** The data of the program *)

(** The three [State] objects of [TemperatureMachine], named by their id. *)
Inductive StateId : Type := off | heat | cool.

Definition id (s : StateId) : string :=
  match s with off => "off" | heat => "heat" | cool => "cool" end.

Definition StateId_eqb (a b : StateId) : bool :=
  match a, b with
  | off, off | heat, heat | cool, cool => true
  | _, _ => false
  end.

(** What a [PWMLED] is doing after [off()], [on()] or [pulse()]. *)
Inductive Led : Type := Off | On | Pulsing.

(** Commands received by the devices. *)
Inductive Cmd : Type :=
| RedOff | RedOn | RedPulse
| BlueOff | BlueOn | BluePulse
| LcdClear
| LcdMessage (message : string)
| LcdDeinit
| SerWrite (data : string).

(** The fields of [datetime.now()] that the display line uses. *)
Record datetime : Type := {
  month : nat; day : nat; hour : nat; minute : nat; second : nat
}.

Inductive Button : Type := greenButton | redButton | blueButton.

(** What the other threads do while the display thread sleeps: a button
    callback, or the main thread catching CTRL-C. *)
Inductive Event : Type :=
| Pressed (b : Button)
| KeyboardInterrupt.

(** The world outside the program.  Each oracle is indexed by the number
    of earlier uses of the device. *)
Record Hardware : Type := {
  (** [thSensor.temperature] in Celsius, [None] when the read raises *)
  temperature : nat -> option float;
  (** whether the n-th [ser.write] goes through *)
  write_ok : nat -> bool;
  (** the n-th [datetime.now()] *)
  now : nat -> datetime;
  (** the events dispatched during the n-th [sleep(1)] of the display thread *)
  events : nat -> list Event
}.

(** [tsm], the devices, and the counters that index the oracles.
    [elapsed] counts the [sleep(1)] calls completed by the display
    thread; every device command is logged with the value of [elapsed]
    at the time, oldest first. *)
Record Machine : Type := {
  current_state : StateId;
  setPoint : Z;
  endDisplay : bool;
  redLight : Led;
  blueLight : Led;
  reads : nat;
  writes : nat;
  clock_calls : nat;
  elapsed : nat;
  log : list (nat * Cmd);
  stdout : list string
}.

(** [tsm = TemperatureMachine()] when the display thread starts: state
    [off], [setPoint = 72], both LEDs dark ([PWMLED]'s initial value is
    0); the log of device commands and the console are taken empty. *)
Definition tsm : Machine := {|
  current_state := off; setPoint := 72; endDisplay := false;
  redLight := Off; blueLight := Off;
  reads := 0; writes := 0; clock_calls := 0; elapsed := 0;
  log := []; stdout := []
|}.

(** [DEBUG = True] *)
Definition DEBUG : bool := true.

(** ** The monad *)

Inductive Res (A : Type) : Type :=
| Ok (a : A)
| Raise (e : Exn).
Arguments Ok {A} a.
Arguments Raise {A} e.

Definition M (A : Type) : Type := Machine -> Res A * Machine.

Definition ret {A} (a : A) : M A := fun s => (Ok a, s).

Definition bind {A B} (c : M A) (k : A -> M B) : M B :=
  fun s =>
    match c s with
    | (Ok a, s') => k a s'
    | (Raise e, s') => (Raise e, s')
    end.

Definition raise {A} (e : Exn) : M A := fun s => (Raise e, s).

Definition gets {A} (f : Machine -> A) : M A := fun s => (Ok (f s), s).

Definition modify (f : Machine -> Machine) : M unit := fun s => (Ok tt, f s).

Declare Scope py_scope.
Delimit Scope py_scope with py.
Notation "x <- c1 ;; c2" := (bind c1 (fun x => c2))
  (at level 100, c1 at next level, right associativity) : py_scope.
Notation "c1 ;; c2" := (bind c1 (fun _ => c2))
  (at level 100, right associativity) : py_scope.
Local Open Scope py_scope.

(** The state a computation leaves, whether it returned or raised. *)
Definition exec {A} (c : M A) (s : Machine) : Machine := snd (c s).

(** ** Field updates *)

Definition with_current_state (v : StateId) (s : Machine) : Machine :=
  {| current_state := v; setPoint := setPoint s; endDisplay := endDisplay s;
     redLight := redLight s; blueLight := blueLight s;
     reads := reads s; writes := writes s; clock_calls := clock_calls s;
     elapsed := elapsed s; log := log s; stdout := stdout s |}.

Definition with_setPoint (v : Z) (s : Machine) : Machine :=
  {| current_state := current_state s; setPoint := v; endDisplay := endDisplay s;
     redLight := redLight s; blueLight := blueLight s;
     reads := reads s; writes := writes s; clock_calls := clock_calls s;
     elapsed := elapsed s; log := log s; stdout := stdout s |}.

Definition with_endDisplay (v : bool) (s : Machine) : Machine :=
  {| current_state := current_state s; setPoint := setPoint s; endDisplay := v;
     redLight := redLight s; blueLight := blueLight s;
     reads := reads s; writes := writes s; clock_calls := clock_calls s;
     elapsed := elapsed s; log := log s; stdout := stdout s |}.

Definition with_redLight (v : Led) (s : Machine) : Machine :=
  {| current_state := current_state s; setPoint := setPoint s; endDisplay := endDisplay s;
     redLight := v; blueLight := blueLight s;
     reads := reads s; writes := writes s; clock_calls := clock_calls s;
     elapsed := elapsed s; log := log s; stdout := stdout s |}.

Definition with_blueLight (v : Led) (s : Machine) : Machine :=
  {| current_state := current_state s; setPoint := setPoint s; endDisplay := endDisplay s;
     redLight := redLight s; blueLight := v;
     reads := reads s; writes := writes s; clock_calls := clock_calls s;
     elapsed := elapsed s; log := log s; stdout := stdout s |}.

Definition with_reads (v : nat) (s : Machine) : Machine :=
  {| current_state := current_state s; setPoint := setPoint s; endDisplay := endDisplay s;
     redLight := redLight s; blueLight := blueLight s;
     reads := v; writes := writes s; clock_calls := clock_calls s;
     elapsed := elapsed s; log := log s; stdout := stdout s |}.

Definition with_writes (v : nat) (s : Machine) : Machine :=
  {| current_state := current_state s; setPoint := setPoint s; endDisplay := endDisplay s;
     redLight := redLight s; blueLight := blueLight s;
     reads := reads s; writes := v; clock_calls := clock_calls s;
     elapsed := elapsed s; log := log s; stdout := stdout s |}.

Definition with_clock_calls (v : nat) (s : Machine) : Machine :=
  {| current_state := current_state s; setPoint := setPoint s; endDisplay := endDisplay s;
     redLight := redLight s; blueLight := blueLight s;
     reads := reads s; writes := writes s; clock_calls := v;
     elapsed := elapsed s; log := log s; stdout := stdout s |}.

Definition with_elapsed (v : nat) (s : Machine) : Machine :=
  {| current_state := current_state s; setPoint := setPoint s; endDisplay := endDisplay s;
     redLight := redLight s; blueLight := blueLight s;
     reads := reads s; writes := writes s; clock_calls := clock_calls s;
     elapsed := v; log := log s; stdout := stdout s |}.

Definition with_log (v : list (nat * Cmd)) (s : Machine) : Machine :=
  {| current_state := current_state s; setPoint := setPoint s; endDisplay := endDisplay s;
     redLight := redLight s; blueLight := blueLight s;
     reads := reads s; writes := writes s; clock_calls := clock_calls s;
     elapsed := elapsed s; log := v; stdout := stdout s |}.

Definition with_stdout (v : list string) (s : Machine) : Machine :=
  {| current_state := current_state s; setPoint := setPoint s; endDisplay := endDisplay s;
     redLight := redLight s; blueLight := blueLight s;
     reads := reads s; writes := writes s; clock_calls := clock_calls s;
     elapsed := elapsed s; log := log s; stdout := v |}.

(** ** Devices *)

(** A device receives a command. *)
Definition emit (c : Cmd) : M unit :=
  modify (fun s => with_log (log s ++ [(elapsed s, c)])%list s).

Definition print (line : string) : M unit :=
  modify (fun s => with_stdout (stdout s ++ [line])%list s).

Definition redLight_off : M unit := emit RedOff ;; modify (with_redLight Off).
Definition redLight_on : M unit := emit RedOn ;; modify (with_redLight On).
Definition redLight_pulse : M unit := emit RedPulse ;; modify (with_redLight Pulsing).
Definition blueLight_off : M unit := emit BlueOff ;; modify (with_blueLight Off).
Definition blueLight_on : M unit := emit BlueOn ;; modify (with_blueLight On).
Definition blueLight_pulse : M unit := emit BluePulse ;; modify (with_blueLight Pulsing).

(** [ManagedDisplay.updateScreen] *)
Definition updateScreen (message : string) : M unit :=
  emit LcdClear ;; emit (LcdMessage message).

(** [ManagedDisplay.cleanupDisplay]: clear, then release the six lines. *)
Definition cleanupDisplay : M unit :=
  emit LcdClear ;; emit LcdDeinit.

(** ** [strftime('%b %d  %H:%M:%S\n')] *)

Definition month_abbr (m : nat) : string :=
  nth (m - 1) ["Jan"; "Feb"; "Mar"; "Apr"; "May"; "Jun";
               "Jul"; "Aug"; "Sep"; "Oct"; "Nov"; "Dec"] "".

Definition two_digits (n : nat) : string :=
  (if (n <? 10)%nat then "0" else "") ++ str (Z.of_nat n).

Definition newline : string := String (ascii_of_nat 10) "".

Definition strftime (t : datetime) : string :=
  month_abbr (month t) ++ " " ++ two_digits (day t) ++ "  " ++
  two_digits (hour t) ++ ":" ++ two_digits (minute t) ++ ":" ++
  two_digits (second t) ++ newline.

(** ** The state machine declaration *)

(** [off = State(initial = True)], [heat = State()], [cool = State()]:
    each state with its [initial] flag. *)
Definition states : list (StateId * bool) :=
  [(off, true); (heat, false); (cool, false)].

Definition initial_state : option StateId :=
  option_map fst (find snd states).

(** [cycle = off.to(heat) | heat.to(cool) | cool.to(off)]: the
    transitions of the event, as (source, target). *)
Definition cycle : list (StateId * StateId) :=
  [(off, heat); (heat, cool); (cool, off)].

(** The target of the first transition of [cycle] that leaves [src]. *)
Definition cycle_target (src : StateId) : option StateId :=
  option_map snd (find (fun tr => StateId_eqb (fst tr) src) cycle).

(** The loop variables of [manageMyDisplay]. *)
Record Locals : Type := { counter : Z; altCounter : Z }.

(** How a run of [manageMyDisplay] stands when the fuel is spent or the
    function has returned. *)
Inductive Outcome : Type :=
| Returned
| Running (l : Locals).

(** ** The methods of [TemperatureMachine] *)

Section Program.

(** The value of the module constant [DEBUG]. *)
Variable debug : bool.
Variable hw : Hardware.

Definition thSensor_temperature : M float :=
  fun s =>
    let s' := with_reads (S (reads s)) s in
    match temperature hw (reads s) with
    | Some t => (Ok t, s')
    | None => (Raise OSError, s')
    end.

Definition datetime_now : M datetime :=
  fun s => (Ok (now hw (clock_calls s)), with_clock_calls (S (clock_calls s)) s).

(** [ser.write(data)]: the bytes reach the line only when the write
    goes through. *)
Definition ser_write (data : string) : M unit :=
  fun s =>
    let s' := with_writes (S (writes s)) s in
    if write_ok hw (writes s) then emit (SerWrite data) s'
    else (Raise SerialException, s').

Definition floor (x : float) : M Z :=
  match PyFloat.floor x with
  | inr z => ret z
  | inl e => raise e
  end.

Definition getFahrenheit : M float :=
  t <- thSensor_temperature ;;
  ret (((9 / 5) * t) + 32)%float.

Definition updateLights : M unit :=
  f <- getFahrenheit ;;
  temp <- floor f ;;
  redLight_off ;;
  blueLight_off ;;
  if debug then
    st <- gets current_state ;;
    print ("State: " ++ id st) ;;
    sp <- gets setPoint ;;
    print ("SetPoint: " ++ str sp) ;;
    print ("Temp: " ++ str temp) ;;
    st <- gets current_state ;;
    match st with
    | heat =>
        sp <- gets setPoint ;;
        if temp >=? sp then redLight_on else redLight_pulse
    | cool =>
        sp <- gets setPoint ;;
        if temp <=? sp then blueLight_on else blueLight_pulse
    | off => ret tt
    end
  else ret tt.

Definition on_enter_heat : M unit :=
  updateLights ;;
  if debug then print "* Changing state to heat" else ret tt.

Definition on_exit_heat : M unit := redLight_off.

Definition on_enter_cool : M unit :=
  updateLights ;;
  if debug then print "* Changing state to cool" else ret tt.

Definition on_exit_cool : M unit := blueLight_off.

Definition on_enter_off : M unit :=
  redLight_off ;;
  blueLight_off ;;
  if debug then print "* Changing state to off" else ret tt.

Definition on_exit (st : StateId) : M unit :=
  match st with
  | heat => on_exit_heat
  | cool => on_exit_cool
  | off => ret tt
  end.

Definition on_enter (st : StateId) : M unit :=
  match st with
  | heat => on_enter_heat
  | cool => on_enter_cool
  | off => on_enter_off
  end.

(** [self.send("cycle")].  The dispatch belongs to the statemachine
    package: it picks the transition of [cycle] that leaves the
    current state, runs the exit hook of the source, moves to the
    target, and runs the enter hook of the target.  When the enter hook
    raises, what the package leaves in [current_state] depends on its
    release: the 2.x releases keep the target, as this definition does,
    later ones put the source back, and the program asks for no
    release in particular.  So the properties below that speak of the
    state after a press are stated for presses whose hooks return. *)
Definition send_cycle : M unit :=
  src <- gets current_state ;;
  match cycle_target src with
  | None => raise TransitionNotAllowed
  | Some dst =>
      on_exit src ;;
      modify (with_current_state dst) ;;
      on_enter dst
  end.

Definition processTempStateButton : M unit :=
  (if debug then print "Cycling Temperature State" else ret tt) ;;
  send_cycle.

Definition processTempIncButton : M unit :=
  (if debug then print "Increasing Set Point" else ret tt) ;;
  modify (fun s => with_setPoint (setPoint s + 1) s) ;;
  updateLights.

Definition processTempDecButton : M unit :=
  (if debug then print "Decreasing Set Point" else ret tt) ;;
  modify (fun s => with_setPoint (setPoint s - 1) s) ;;
  updateLights.

Definition setupSerialOutput : M string :=
  st <- gets current_state ;;
  f <- getFahrenheit ;;
  sp <- gets setPoint ;;
  ret (id st ++ "," ++ PyFloat.format_1f f ++ "," ++ str sp).

(** *** The other threads *)

Definition callback (b : Button) : M unit :=
  match b with
  | greenButton => processTempStateButton
  | redButton => processTempIncButton
  | blueButton => processTempDecButton
  end.

(** The [except KeyboardInterrupt] branch of the main loop. *)
Definition interrupt : M unit :=
  print "Cleaning up. Exiting..." ;;
  modify (with_endDisplay true).

Definition dispatch (e : Event) : M unit :=
  match e with
  | Pressed b => callback b
  | KeyboardInterrupt => interrupt
  end.

(** An exception of a callback ends in the thread that ran it; what
    the callback did before raising stays. *)
Definition in_other_thread (c : M unit) : M unit :=
  fun s => (Ok tt, exec c s).

Fixpoint run_events (es : list Event) : M unit :=
  match es with
  | [] => ret tt
  | e :: es' => in_other_thread (dispatch e) ;; run_events es'
  end.

(** [sleep(1)] in the display thread: the other threads run, then one
    more second has elapsed.  The callbacks run here, each to its end.
    The program takes no lock, so a callback can as well run in the
    middle of the work of an iteration; [read_state_then_setPoint]
    models one between the two reads of the state line. *)
Definition sleep : M unit :=
  es <- gets (fun s => events hw (elapsed s)) ;;
  run_events es ;;
  modify (fun s => with_elapsed (S (elapsed s)) s).

(** *** The display thread *)

(** "Setup Display Line 2": the text of [line_2] and the new value of
    [altCounter]. *)
Definition setup_line_2 (altCounter : Z) : M (string * Z) :=
  if altCounter <? 6 then
    f <- getFahrenheit ;;
    ret ("T:" ++ PyFloat.format_1f f ++ "F", altCounter + 1)
  else
    st <- gets current_state ;;
    sp <- gets setPoint ;;
    let line_2 := "ST:" ++ id st ++ " Set:" ++ str sp ++ "F" in
    let altCounter := altCounter + 1 in
    if altCounter >=? 11 then
      updateLights ;;
      ret (line_2, 1)
    else ret (line_2, altCounter).

(** "Update server every 30 seconds": the new value of [counter]. *)
Definition update_server (counter : Z) : M Z :=
  (if debug then print ("Counter: " ++ str counter) else ret tt) ;;
  if counter mod 30 =? 0 then
    output <- setupSerialOutput ;;
    ser_write output ;;
    ret 1
  else ret (counter + 1).

(** The body of the [while] loop of [manageMyDisplay] up to its
    [sleep(1)]. *)
Definition tick (l : Locals) : M Locals :=
  (if debug then print "Processing Display Info..." else ret tt) ;;
  current_time <- datetime_now ;;
  let line_1 := strftime current_time in
  p <- setup_line_2 (altCounter l) ;;
  updateScreen (line_1 ++ fst p) ;;
  c <- update_server (counter l) ;;
  ret {| counter := c; altCounter := snd p |}.

(** One iteration of the [while] loop. *)
Definition loop_body (l : Locals) : M Locals :=
  l' <- tick l ;;
  sleep ;;
  ret l'.

(** The [while not self.endDisplay] loop, for at most [fuel]
    iterations. *)
Fixpoint while_loop (fuel : nat) (l : Locals) : M Outcome :=
  match fuel with
  | O => ret (Running l)
  | S fuel' =>
      stop <- gets endDisplay ;;
      if stop then cleanupDisplay ;; ret Returned
      else l' <- loop_body l ;; while_loop fuel' l'
  end.

Definition manageMyDisplay (fuel : nat) : M Outcome :=
  while_loop fuel {| counter := 1; altCounter := 1 |}.

End Program.

Arguments PyFloat.floor : simpl never.
Arguments PyFloat.format_1f : simpl never.
Arguments str : simpl never.
Arguments strftime : simpl never.

(** * The vocabulary of the statements *)

(** [c] relates every state to the one it leaves, whether it returns
    or raises. *)
Definition keeps (R : Machine -> Machine -> Prop) {A} (c : M A) : Prop :=
  forall s, R s (exec c s).

Definition same_tsm (s s' : Machine) : Prop :=
  current_state s' = current_state s /\ setPoint s' = setPoint s.

(** The lines [updateLights] prints under [DEBUG]. *)
Definition debug_lines (s : Machine) (temp : Z) : list string :=
  ["State: " ++ id (current_state s);
   "SetPoint: " ++ str (setPoint s);
   "Temp: " ++ str temp].

(** The LED command that the [match] of [updateLights] issues. *)
Definition match_cmd (st : StateId) (sp temp : Z) : list Cmd :=
  match st with
  | heat => if temp >=? sp then [RedOn] else [RedPulse]
  | cool => if temp <=? sp then [BlueOn] else [BluePulse]
  | off => []
  end.

(** The LEDs after the commands [cs], starting from [(red, blue)]. *)
Fixpoint leds_after (cs : list Cmd) (leds : Led * Led) : Led * Led :=
  match cs with
  | [] => leds
  | c :: cs' =>
      leds_after cs'
        match c with
        | RedOff => (Off, snd leds)
        | RedOn => (On, snd leds)
        | RedPulse => (Pulsing, snd leds)
        | BlueOff => (fst leds, Off)
        | BlueOn => (fst leds, On)
        | BluePulse => (fst leds, Pulsing)
        | _ => leds
        end
  end.

(** [cs] stamped with the time of [s]. *)
Definition stamped (s : Machine) (cs : list Cmd) : list (nat * Cmd) :=
  map (fun c => (elapsed s, c)) cs.

Definition at_most_one_lit (s : Machine) : Prop :=
  redLight s = Off \/ blueLight s = Off.

Definition lit_inv (s s' : Machine) : Prop :=
  at_most_one_lit s -> at_most_one_lit s'.

(** A sensor that always reads the same Celsius value, a serial line
    that always works, a fixed clock and no button presses. *)
Definition steady (t : float) : Hardware := {|
  temperature := fun _ => Some t;
  write_ok := fun _ => true;
  now := fun n => {| month := 11; day := 4; hour := 7; minute := 5; second := 0 |};
  events := fun _ => []
|}.

(** The fixed order of the specification: Off, then Heat, then Cool,
    then Off again. *)
Definition next_in_order (m : StateId) : StateId :=
  match m with
  | off => heat
  | heat => cool
  | cool => off
  end.

Definition is_SerWrite (c : Cmd) : bool :=
  match c with SerWrite _ => true | _ => false end.

(** The iterations of the display loop, counted from 1, in which a
    status line went out on the serial port. *)
Definition transmissions (lg : list (nat * Cmd)) : list nat :=
  map (fun x => S (fst x)) (filter (fun x => is_SerWrite (snd x)) lg).

(** The messages put on the display, each with its time stamp. *)
Definition shown (lg : list (nat * Cmd)) : list (nat * string) :=
  flat_map (fun x => match snd x with
                     | LcdMessage m => [(fst x, m)]
                     | _ => []
                     end) lg.

Definition is_led (c : Cmd) : bool :=
  match c with
  | RedOff | RedOn | RedPulse | BlueOff | BlueOn | BluePulse => true
  | _ => false
  end.

(** The commands sent to the two LEDs. *)
Definition led_cmds (lg : list (nat * Cmd)) : list Cmd :=
  filter is_led (map snd lg).

Arguments transmissions : simpl never.
Arguments shown : simpl never.
Arguments led_cmds : simpl never.

(** What [getFahrenheit] returns at the [n]-th read of the sensor. *)
Definition reading (hw : Hardware) (n : nat) : option float :=
  option_map (fun t => ((9 / 5) * t + 32)%float) (temperature hw n).

(** Every read of the sensor gives a finite temperature. *)
Definition sensor_ok (hw : Hardware) : Prop :=
  forall n, exists f z, reading hw n = Some f /\ PyFloat.floor f = inr z.

(** No failures: the sensor always answers and every write on the
    serial port goes through. *)
Definition healthy (hw : Hardware) : Prop :=
  sensor_ok hw /\ (forall n, write_ok hw n = true).

(** Nobody stops the program. *)
Definition uninterrupted (hw : Hardware) : Prop :=
  forall n, ~ In KeyboardInterrupt (events hw n).

(** [counter] and [altCounter] after one more iteration. *)
Definition next_counter (c : Z) : Z :=
  if c mod 30 =? 0 then 1 else c + 1.

Definition next_altCounter (a : Z) : Z :=
  if a <? 6 then a + 1 else if a + 1 >=? 11 then 1 else a + 1.

Definition next_locals (l : Locals) : Locals :=
  {| counter := next_counter (counter l);
     altCounter := next_altCounter (altCounter l) |}.

(** The status line for state [st], reading [f] and setpoint [sp]. *)
Definition status_line (st : StateId) (f : float) (sp : Z) : string :=
  id st ++ "," ++ PyFloat.format_1f f ++ "," ++ str sp.

(** The display thread's clock, stop flag and serial traffic:
    [extra] lists the transmissions made between [s] and [s']. *)
Definition sched (extra : list nat) (s s' : Machine) : Prop :=
  elapsed s' = elapsed s /\
  endDisplay s' = endDisplay s /\
  transmissions (log s') = (transmissions (log s) ++ extra)%list.

Definition same_sched : Machine -> Machine -> Prop := sched [].

(** The log after the status line for the state of [s] has been
    written, for some reading [f] of the sensor. *)
Definition status_sent (hw : Hardware) (s s' : Machine) : Prop :=
  exists lg f n,
    reading hw n = Some f /\
    log s' = (lg ++ [(elapsed s,
                      SerWrite (status_line (current_state s) f (setPoint s)))])%list.

(** The iterations, counted from [t + 1], in which [n] iterations that
    start with [counter = c] write a status line. *)
Fixpoint report_ticks (n : nat) (c : Z) (t : nat) : list nat :=
  match n with
  | O => []
  | S n' =>
      ((if c mod 30 =? 0 then [S t] else []) ++
       report_ticks n' (next_counter c) (S t))%list
  end.

(** The display and the LEDs. *)
Definition same_panel (s s' : Machine) : Prop :=
  shown (log s') = shown (log s) /\
  led_cmds (log s') = led_cmds (log s) /\
  redLight s' = redLight s /\ blueLight s' = blueLight s.

(** The text of [line_2] in an iteration that starts with [altCounter = a]
    in state [s] and reads [f] from the sensor. *)
Definition line_2_text (a : Z) (s : Machine) (f : float) : string :=
  if a <? 6 then "T:" ++ PyFloat.format_1f f ++ "F"
  else "ST:" ++ id (current_state s) ++ " Set:" ++ str (setPoint s) ++ "F".

(** The iteration that completes the window of ten is the one that
    starts with [altCounter = 10]. *)
Definition resync (a : Z) : bool :=
  if a <? 6 then false else a + 1 >=? 11.

Definition same_writes (s s' : Machine) : Prop := writes s' = writes s.

(** A sensor whose first read fails and which works afterwards. *)
Definition flaky_sensor : Hardware := {|
  temperature := fun n => if (n =? 0)%nat then None else Some 20%float;
  write_ok := fun _ => true;
  now := fun n => {| month := 11; day := 4; hour := 7; minute := 5; second := 0 |};
  events := fun _ => []
|}.

(** A serial port on which no write goes through. *)
Definition dead_serial : Hardware := {|
  temperature := fun _ => Some 20%float;
  write_ok := fun _ => false;
  now := fun n => {| month := 11; day := 4; hour := 7; minute := 5; second := 0 |};
  events := fun _ => []
|}.

Fixpoint has_char (c : ascii) (s : string) : bool :=
  match s with
  | EmptyString => false
  | String a s' => Ascii.eqb a c || has_char c s'
  end.

(** The fields of [s] between the occurrences of [c], as [s.split(c)]
    gives them. *)
Fixpoint split_on (c : ascii) (s : string) : list string :=
  match s with
  | EmptyString => [EmptyString]
  | String a s' =>
      if Ascii.eqb a c then EmptyString :: split_on c s'
      else match split_on c s' with
           | [] => [String a EmptyString]
           | w :: ws => String a w :: ws
           end
  end.

Definition comma : ascii := ","%char.



(** ** Vocabulary of the further properties *)

(** [ManagedDisplay.__init__]: [self.lcd_columns = 16] and
    [self.lcd_rows = 2]. *)
Definition lcd_columns : nat := 16.

Definition lcd_rows : nat := 2.

Definition Button_eqb (a b : Button) : bool :=
  match a, b with
  | greenButton, greenButton | redButton, redButton
  | blueButton, blueButton => true
  | _, _ => false
  end.

(** How many times [b] is pressed in [bs]. *)
Definition presses (b : Button) (bs : list Button) : nat :=
  List.length (filter (Button_eqb b) bs).

(** The LEDs that [updateLights] leaves in state [st] with setpoint [sp]
    when the floor of the reading is [temp]. *)
Definition led_rule (debug : bool) (st : StateId) (sp temp : Z) : Led * Led :=
  leds_after (if debug then match_cmd st sp temp else []) (Off, Off).

(** The clock and the serial traffic of the display thread, and its
    stop flag once it is set. *)
Definition stays_stopped (s s' : Machine) : Prop :=
  elapsed s' = elapsed s /\
  transmissions (log s') = transmissions (log s) /\
  (endDisplay s = true -> endDisplay s' = true).

(** A room at 20 degrees Celsius in which the green button is pressed
    during the sleep of iteration [k + 1]. *)
Definition green_at (k : nat) : Hardware := {|
  temperature := fun _ => Some 20%float;
  write_ok := fun _ => true;
  now := fun n => {| month := 11; day := 4; hour := 7; minute := 5; second := 0 |};
  events := fun n => if (n =? k)%nat then [Pressed greenButton] else []
|}.

(** A room at 20 degrees Celsius in which CTRL-C is pressed during the
    sleep of iteration [k + 1]. *)
Definition ctrl_c_at (k : nat) : Hardware := {|
  temperature := fun _ => Some 20%float;
  write_ok := fun _ => true;
  now := fun n => {| month := 11; day := 4; hour := 7; minute := 5; second := 0 |};
  events := fun n => if (n =? k)%nat then [KeyboardInterrupt] else []
|}.

(** What a button callback may do to the world outside the state
    machine: send commands to the two LEDs, and nothing else.  The time,
    the stop flag, the serial port and the clock are as before, and what
    it adds to the log are LED commands. *)
Definition only_leds (s s' : Machine) : Prop :=
  elapsed s' = elapsed s /\
  endDisplay s' = endDisplay s /\
  writes s' = writes s /\
  clock_calls s' = clock_calls s /\
  exists cs, log s' = (log s ++ stamped s cs)%list /\ forallb is_led cs = true.

(** What the display thread leaves alone between two sleeps. *)
Definition thermostat_untouched (s s' : Machine) : Prop :=
  current_state s' = current_state s /\
  setPoint s' = setPoint s /\
  endDisplay s' = endDisplay s /\
  elapsed s' = elapsed s.

(** The buttons pressed among the events [es], in order. *)
Definition pressed_in (es : list Event) : list Button :=
  flat_map (fun e => match e with
                     | Pressed b => [b]
                     | KeyboardInterrupt => []
                     end) es.

Definition is_interrupt (e : Event) : bool :=
  match e with KeyboardInterrupt => true | Pressed _ => false end.

(** The events of [n] sleeps, from the sleep of second [t] on. *)
Definition events_from (hw : Hardware) (t n : nat) : list Event :=
  List.concat (map (events hw) (seq t n)).

(** State and setpoint after the presses [bs], from [st] and [sp]. *)
Definition tally (bs : list Button) (st : StateId) (sp : Z) : StateId * Z :=
  (Nat.iter (presses greenButton bs) next_in_order st,
   sp + Z.of_nat (presses redButton bs) - Z.of_nat (presses blueButton bs)).

(** A date and time of day as [datetime.now()] returns them. *)
Definition valid_datetime (d : datetime) : Prop :=
  (1 <= month d <= 12)%nat /\ (1 <= day d <= 31)%nat /\
  (hour d < 24)%nat /\ (minute d < 60)%nat /\ (second d < 60)%nat.

(** The integers from [lo] to [hi]. *)
Definition Z_range (lo hi : Z) : list Z :=
  map (fun i => lo + Z.of_nat i) (seq 0 (Z.to_nat (hi - lo + 1))).

(** Whether the state line for [st] and [sp] is as wide as the display
    or less. *)
Definition state_line_fits (st : StateId) (sp : Z) : bool :=
  (String.length ("ST:" ++ id st ++ " Set:" ++ str sp ++ "F") <=? lcd_columns)%nat.

(** The setpoints for which it is, as far as four digits go. *)
Definition narrow_enough (st : StateId) (sp : Z) : bool :=
  match st with
  | off => -999 <=? sp
  | heat | cool => (-99 <=? sp) && (sp <=? 999)
  end.

(** The log without the commands to the LEDs. *)
Definition non_led (lg : list (nat * Cmd)) : list (nat * Cmd) :=
  filter (fun x => negb (is_led (snd x))) lg.

Arguments non_led : simpl never.

(** Two states that differ at most in the LEDs and in what has been
    printed. *)
Definition alike (s1 s2 : Machine) : Prop :=
  current_state s1 = current_state s2 /\
  setPoint s1 = setPoint s2 /\
  endDisplay s1 = endDisplay s2 /\
  reads s1 = reads s2 /\
  writes s1 = writes s2 /\
  clock_calls s1 = clock_calls s2 /\
  elapsed s1 = elapsed s2 /\
  non_led (log s1) = non_led (log s2).

(** [c1] and [c2] end the same way and keep two states alike. *)
Definition sim {A} (c1 c2 : M A) : Prop :=
  forall s1 s2,
    alike s1 s2 ->
    fst (c1 s1) = fst (c2 s2) /\ alike (snd (c1 s1)) (snd (c2 s2)).

(** [c] returns, and changes at most the LEDs and what is printed. *)
Definition unseen (c : M unit) : Prop :=
  forall s, fst (c s) = Ok tt /\ alike s (snd (c s)).

Definition is_deinit (c : Cmd) : bool :=
  match c with LcdDeinit => true | _ => false end.

(** How many times the lines of the display have been released. *)
Definition releases (lg : list (nat * Cmd)) : nat :=
  List.length (filter (fun x => is_deinit (snd x)) lg).

Arguments releases : simpl never.

Definition same_releases (s s' : Machine) : Prop :=
  releases (log s') = releases (log s).

(** * Properties *)

(** ** What a computation leaves unchanged *)

Section Frames.

Variable R : Machine -> Machine -> Prop.
Hypothesis R_refl : forall s, R s s.
Hypothesis R_trans : forall a b c, R a b -> R b c -> R a c.

Lemma keeps_ret {A} (a : A) : keeps R (ret a).
Proof. intros s. apply R_refl. Qed.

Lemma keeps_raise {A} (e : Exn) : keeps R (@raise A e).
Proof. intros s. apply R_refl. Qed.

Lemma keeps_gets {A} (f : Machine -> A) : keeps R (gets f).
Proof. intros s. apply R_refl. Qed.

Lemma keeps_modify (f : Machine -> Machine) :
  (forall s, R s (f s)) -> keeps R (modify f).
Proof. intros H s. apply H. Qed.

Lemma keeps_bind {A B} (c : M A) (k : A -> M B) :
  keeps R c -> (forall a, keeps R (k a)) -> keeps R (bind c k).
Proof.
  intros Hc Hk s. unfold exec, bind.
  specialize (Hc s). unfold exec in Hc.
  destruct (c s) as [[a|e] s1]; cbn in *.
  - eapply R_trans; [exact Hc | apply Hk].
  - exact Hc.
Qed.

Lemma keeps_in_other_thread (c : M unit) :
  keeps R c -> keeps R (in_other_thread c).
Proof. intros H s. apply H. Qed.

Lemma keeps_floor (x : float) : keeps R (floor x).
Proof.
  unfold floor. destruct (PyFloat.floor x); [apply keeps_raise | apply keeps_ret].
Qed.

End Frames.

(** Splits a goal [keeps R c] along the structure of [c]; the leaves
    are closed from the hypotheses or left to the caller. *)
Ltac keeps_step Hrefl Htrans :=
  first
    [ assumption
    | match goal with |- keeps _ _ => solve [auto 2] end
    | match goal with
      | |- keeps _ (ret _) => apply (keeps_ret _ Hrefl)
      | |- keeps _ (raise _) => apply (keeps_raise _ Hrefl)
      | |- keeps _ (gets _) => apply (keeps_gets _ Hrefl)
      | |- keeps _ (floor _) => apply (keeps_floor _ Hrefl)
      | |- keeps _ (bind _ _) => apply (keeps_bind _ Htrans); [ | intros ? ]
      | |- keeps _ (in_other_thread _) => apply keeps_in_other_thread
      | |- keeps _ (if ?b then _ else _) => destruct b
      | |- keeps _ (match ?x with _ => _ end) => destruct x
      end ].

Ltac keeps_walk Hrefl Htrans := repeat keeps_step Hrefl Htrans.

(** *** The state machine's own data: [current_state] and [setPoint] *)

Lemma same_tsm_refl s : same_tsm s s.
Proof. split; reflexivity. Qed.

Lemma same_tsm_trans a b c : same_tsm a b -> same_tsm b c -> same_tsm a c.
Proof. unfold same_tsm. intuition congruence. Qed.

Ltac tsm_walk := keeps_walk same_tsm_refl same_tsm_trans.

Lemma same_tsm_emit c : keeps same_tsm (emit c).
Proof. intros s. split; reflexivity. Qed.

Lemma same_tsm_print line : keeps same_tsm (print line).
Proof. intros s. split; reflexivity. Qed.

Lemma same_tsm_leds :
  keeps same_tsm redLight_off /\ keeps same_tsm redLight_on /\
  keeps same_tsm redLight_pulse /\ keeps same_tsm blueLight_off /\
  keeps same_tsm blueLight_on /\ keeps same_tsm blueLight_pulse.
Proof. repeat split. Qed.

Lemma same_tsm_getFahrenheit hw : keeps same_tsm (getFahrenheit hw).
Proof.
  intros s. unfold exec, getFahrenheit, bind, thSensor_temperature.
  destruct (temperature hw (reads s)); split; reflexivity.
Qed.

Lemma same_tsm_updateLights debug hw : keeps same_tsm (updateLights debug hw).
Proof.
  pose proof (same_tsm_getFahrenheit hw).
  pose proof same_tsm_print.
  destruct same_tsm_leds as (? & ? & ? & ? & ? & ?).
  unfold updateLights. tsm_walk.
Qed.

(** ** Running [updateLights] *)

Lemma getFahrenheit_inv hw s f s1 :
  getFahrenheit hw s = (Ok f, s1) ->
  s1 = with_reads (S (reads s)) s /\
  exists t, temperature hw (reads s) = Some t /\
            f = (((9 / 5) * t) + 32)%float.
Proof.
  unfold getFahrenheit, bind, thSensor_temperature, ret.
  destruct (temperature hw (reads s)) as [t|]; intros E; inversion E; subst.
  split; [reflexivity | exists t; split; reflexivity].
Qed.

(** When the sensor answers with a finite reading, [updateLights]
    returns, and its whole effect is: one more read, both LEDs off,
    then the command of the [match] when [debug] is set. *)
Lemma updateLights_run (debug : bool) hw s f s1 temp :
  getFahrenheit hw s = (Ok f, s1) ->
  PyFloat.floor f = inr temp ->
  let cs := if debug then match_cmd (current_state s) (setPoint s) temp else [] in
  let leds := leds_after cs (Off, Off) in
  updateLights debug hw s =
  (Ok tt,
   with_stdout (stdout s ++ (if debug then debug_lines s temp else []))%list
     (with_log (log s ++ stamped s (RedOff :: BlueOff :: cs))%list
        (with_redLight (fst leds)
           (with_blueLight (snd leds)
              (with_reads (S (reads s)) s))))).
Proof.
  intros E F. unfold updateLights. unfold bind at 1. rewrite E.
  apply getFahrenheit_inv in E. destruct E as [-> _].
  unfold bind at 1. unfold floor. rewrite F.
  unfold debug_lines, match_cmd, stamped.
  destruct debug; cbn;
    [ destruct (current_state s) eqn:Est; cbn;
      [ | destruct (temp >=? setPoint s) | destruct (temp <=? setPoint s) ] | ];
    cbn; rewrite ?Est; cbn; rewrite <- ?app_assoc, ?app_nil_r; reflexivity.
Qed.

(** When the read or the floor raises, [updateLights] raises before it
    touches a LED. *)
Lemma updateLights_raise debug hw s e s' :
  updateLights debug hw s = (Raise e, s') ->
  s' = with_reads (S (reads s)) s.
Proof.
  unfold updateLights, getFahrenheit, thSensor_temperature, floor.
  unfold bind at 1. unfold bind at 1.
  destruct (temperature hw (reads s)) as [t|]; cbn.
  - unfold bind at 1.
    destruct (PyFloat.floor _) as [e'|z]; cbn.
    + intros H; inversion H; reflexivity.
    + destruct debug; cbn.
      * destruct (current_state s); cbn; try discriminate.
        -- destruct (z >=? setPoint s); cbn; discriminate.
        -- destruct (z <=? setPoint s); cbn; discriminate.
      * discriminate.
  - intros H; inversion H; reflexivity.
Qed.

Lemma updateLights_ok_inv debug hw s :
  fst (updateLights debug hw s) = Ok tt ->
  exists f s1 temp,
    getFahrenheit hw s = (Ok f, s1) /\ PyFloat.floor f = inr temp.
Proof.
  unfold updateLights. unfold bind at 1.
  destruct (getFahrenheit hw s) as [[f|e] s1]; [ | discriminate ].
  unfold bind at 1. unfold floor.
  destruct (PyFloat.floor f) as [e|temp] eqn:F; [ discriminate | ].
  intros _. exists f, s1, temp. split; [reflexivity | exact F].
Qed.

(** *** At most one LED is lit *)

Lemma lit_inv_refl s : lit_inv s s.
Proof. intros H; exact H. Qed.

Lemma lit_inv_trans a b c : lit_inv a b -> lit_inv b c -> lit_inv a c.
Proof. unfold lit_inv. auto. Qed.

Ltac lit_walk := keeps_walk lit_inv_refl lit_inv_trans.

Lemma lit_inv_updateLights debug hw : keeps lit_inv (updateLights debug hw).
Proof.
  intros s Hs. unfold exec.
  destruct (updateLights debug hw s) as [[[]|e] s'] eqn:E.
  - destruct (updateLights_ok_inv debug hw s) as (f & s1 & temp & Ef & Ft).
    { rewrite E. reflexivity. }
    rewrite (updateLights_run debug hw s f s1 temp Ef Ft) in E.
    inversion E; subst s'; clear E. unfold at_most_one_lit, match_cmd. cbn.
    destruct debug; cbn; [ destruct (current_state s); cbn | ]; auto;
      [ destruct (temp >=? setPoint s) | destruct (temp <=? setPoint s) ];
      cbn; auto.
  - apply updateLights_raise in E. subst s'. exact Hs.
Qed.

Lemma lit_inv_off : keeps lit_inv redLight_off /\ keeps lit_inv blueLight_off.
Proof.
  split; intros s; unfold lit_inv, at_most_one_lit; cbn; auto.
Qed.

Lemma lit_inv_print line : keeps lit_inv (print line).
Proof. intros s H; exact H. Qed.

Lemma lit_inv_dispatch debug hw e : keeps lit_inv (dispatch debug hw e).
Proof.
  pose proof (lit_inv_updateLights debug hw).
  pose proof lit_inv_print.
  destruct lit_inv_off.
  destruct e as [[ | | ] | ]; cbn;
    unfold processTempStateButton, processTempIncButton, processTempDecButton,
      interrupt, send_cycle; lit_walk;
    try (apply keeps_modify; intros ? ?; assumption).
  all: unfold on_exit, on_enter, on_enter_heat, on_enter_cool, on_enter_off,
         on_exit_heat, on_exit_cool; lit_walk;
    try (apply keeps_modify; intros ? ?; assumption).
Qed.

(** ** The indicator rules *)

(** C1.  With [DEBUG = True] as in the source, [updateLights] follows
    the floor-based rules.  Let [f] be the Fahrenheit reading that
    [getFahrenheit] returns and [temp] its floor.  In state heat:
    [temp >= setPoint] leaves red on and blue off, otherwise red pulsing
    and blue off.  In state cool: [temp <= setPoint] leaves blue on and
    red off, otherwise blue pulsing and red off.  With setPoint 72 in
    heat, a reading of 72.4 gives red on, blue off, and a reading of
    71.9 gives red pulsing, blue off. *)
Theorem updateLights_floor_rules :
  forall hw s f s1,
    getFahrenheit hw s = (Ok f, s1) ->
    let s' := exec (updateLights DEBUG hw) s in
    (forall temp, PyFloat.floor f = inr temp ->
       fst (updateLights DEBUG hw s) = Ok tt /\
       (current_state s = heat -> temp >= setPoint s ->
          redLight s' = On /\ blueLight s' = Off) /\
       (current_state s = heat -> temp < setPoint s ->
          redLight s' = Pulsing /\ blueLight s' = Off) /\
       (current_state s = cool -> temp <= setPoint s ->
          blueLight s' = On /\ redLight s' = Off) /\
       (current_state s = cool -> temp > setPoint s ->
          blueLight s' = Pulsing /\ redLight s' = Off)) /\
    (current_state s = heat -> setPoint s = 72 -> f = 72.4%float ->
       redLight s' = On /\ blueLight s' = Off) /\
    (current_state s = heat -> setPoint s = 72 -> f = 71.9%float ->
       redLight s' = Pulsing /\ blueLight s' = Off).
Proof.
  intros hw s f s1 E s'.
  assert (G : forall temp, PyFloat.floor f = inr temp ->
            fst (updateLights DEBUG hw s) = Ok tt /\
            (redLight s', blueLight s') =
            leds_after (match_cmd (current_state s) (setPoint s) temp) (Off, Off)).
  { intros temp F. subst s'. unfold exec.
    rewrite (updateLights_run DEBUG hw s f s1 temp E F). cbn.
    split; [reflexivity | ].
    destruct (leds_after _ _); reflexivity. }
  split; [ intros temp F | split ].
  - destruct (G temp F) as [G1 G2]. split; [exact G1 | ].
    split; [ | split; [ | split ] ]; intros St Cmp;
      rewrite St in G2; unfold match_cmd in G2.
    + destruct (Z.geb_spec temp (setPoint s)); [ | lia ].
      inversion G2. split; reflexivity.
    + destruct (Z.geb_spec temp (setPoint s)); [ lia | ].
      inversion G2. split; reflexivity.
    + destruct (Z.leb_spec temp (setPoint s)); [ | lia ].
      inversion G2. split; reflexivity.
    + destruct (Z.leb_spec temp (setPoint s)); [ lia | ].
      inversion G2. split; reflexivity.
  - intros St Sp ->. destruct (G 72 eq_refl) as [_ G2].
    rewrite St, Sp in G2. cbn in G2. inversion G2. split; reflexivity.
  - intros St Sp ->. destruct (G 71 eq_refl) as [_ G2].
    rewrite St, Sp in G2. cbn in G2. inversion G2. split; reflexivity.
Qed.

Lemma updateLights_floor_rules_witness :
  let hw := steady 22.444444444444443%float in
  let s := with_current_state heat tsm in
  getFahrenheit hw s = (Ok 72.4%float, with_reads 1 s) /\
  redLight (exec (updateLights DEBUG hw) s) = On /\
  blueLight (exec (updateLights DEBUG hw) s) = Off.
Proof.
  intros hw s. split; [reflexivity | ].
  exact (proj1 (proj2 (updateLights_floor_rules hw s 72.4%float
                         (with_reads 1 s) eq_refl))
           eq_refl eq_refl eq_refl).
Defined.

(** C9.  The [match] of [updateLights] sits under [if(DEBUG)].  When
    the reading is finite and [DEBUG] is False, [updateLights] sends
    red off, blue off and nothing else, in every state and for every
    setPoint, so both LEDs are off afterwards; with [DEBUG] True the
    command of the [match] follows the two. *)
Theorem updateLights_without_DEBUG :
  forall hw s f s1 temp,
    getFahrenheit hw s = (Ok f, s1) ->
    PyFloat.floor f = inr temp ->
    let s' := exec (updateLights false hw) s in
    fst (updateLights false hw s) = Ok tt /\
    log s' = (log s ++ stamped s [RedOff; BlueOff])%list /\
    redLight s' = Off /\ blueLight s' = Off /\
    log (exec (updateLights true hw) s) =
      (log s ++ stamped s ([RedOff; BlueOff] ++
                           match_cmd (current_state s) (setPoint s) temp))%list.
Proof.
  intros hw s f s1 temp E F s'. subst s'. unfold exec.
  rewrite (updateLights_run false hw s f s1 temp E F).
  rewrite (updateLights_run true hw s f s1 temp E F).
  cbn. repeat split; reflexivity.
Qed.

Lemma updateLights_without_DEBUG_witness :
  let hw := steady 20%float in
  let s := with_current_state heat tsm in
  log (exec (updateLights false hw) s) = [(0%nat, RedOff); (0%nat, BlueOff)] /\
  redLight (exec (updateLights false hw) s) = Off.
Proof.
  intros hw s.
  pose proof (updateLights_without_DEBUG hw s 68%float (with_reads 1 s) 68
                eq_refl eq_refl) as H.
  split; [ exact (proj1 (proj2 H)) | exact (proj1 (proj2 (proj2 H))) ].
Defined.

(** C6.  At most one LED is lit after an operation on the LEDs.
    [updateLights], when it returns, has sent red off and blue off
    first and then at most one command, which lights one LED, so the
    LEDs it leaves are those of that one command applied to two dark
    LEDs, whatever they were before.  [on_enter_off] leaves both LEDs
    off from any state, and so does the cycle event that leaves cool.
    [updateLights] (also when it raises), every button callback and
    the interrupt, each run to its end with no callback of another
    thread in between, keep "at most one LED lit". *)
Theorem indicators_at_most_one_lit :
  forall debug hw s,
    (fst (updateLights debug hw s) = Ok tt ->
     exists cs,
       let s' := exec (updateLights debug hw) s in
       log s' = (log s ++ stamped s (RedOff :: BlueOff :: cs))%list /\
       (List.length cs <= 1)%nat /\
       (redLight s', blueLight s') = leds_after cs (Off, Off) /\
       at_most_one_lit s') /\
    (redLight (exec (on_enter_off debug) s) = Off /\
     blueLight (exec (on_enter_off debug) s) = Off) /\
    (current_state s = cool ->
     let s' := exec (send_cycle debug hw) s in
     current_state s' = off /\ redLight s' = Off /\ blueLight s' = Off) /\
    (at_most_one_lit s ->
     at_most_one_lit (exec (updateLights debug hw) s) /\
     (forall e, at_most_one_lit (exec (dispatch debug hw e) s))).
Proof.
  intros debug hw s. split; [ | split; [ | split ] ].
  - intros Hok.
    destruct (updateLights_ok_inv debug hw s Hok) as (f & s1 & temp & Ef & Ft).
    exists (if debug then match_cmd (current_state s) (setPoint s) temp else []).
    unfold exec. rewrite (updateLights_run debug hw s f s1 temp Ef Ft).
    unfold at_most_one_lit, match_cmd. cbn.
    destruct debug; cbn; [ destruct (current_state s); cbn | ];
      [ | destruct (temp >=? setPoint s) | destruct (temp <=? setPoint s) | ];
      cbn; repeat split; auto.
  - unfold exec, on_enter_off. destruct debug; split; reflexivity.
  - intros St. unfold exec, send_cycle, bind at 1. cbn. rewrite St. cbn.
    destruct debug; repeat split; reflexivity.
  - intros Hs. split.
    + apply (lit_inv_updateLights debug hw s Hs).
    + intros e. apply (lit_inv_dispatch debug hw e s Hs).
Qed.

Lemma indicators_at_most_one_lit_witness :
  let hw := steady 20%float in
  let s := with_current_state cool (with_blueLight Pulsing tsm) in
  at_most_one_lit (exec (dispatch DEBUG hw (Pressed greenButton)) s) /\
  blueLight (exec (send_cycle DEBUG hw) s) = Off.
Proof.
  intros hw s.
  pose proof (indicators_at_most_one_lit DEBUG hw s) as (_ & _ & Hoff & Hinv).
  split.
  - exact (proj2 (Hinv (or_introl eq_refl)) (Pressed greenButton)).
  - exact (proj2 (proj2 (Hoff eq_refl))).
Defined.

(** ** The setpoint buttons *)

(** C7.  [processTempIncButton] adds exactly one to [setPoint] and
    [processTempDecButton] subtracts exactly one, for every integer
    [setPoint]; what follows the assignment is [updateLights], run on
    the new [setPoint]; no bound is applied: [n] presses of the red
    button move [setPoint] up by [n] and [n] presses of the blue button
    move it down by [n], for every [n]. *)
Theorem setpoint_buttons :
  forall debug hw s,
    setPoint (exec (processTempIncButton debug hw) s) = setPoint s + 1 /\
    setPoint (exec (processTempDecButton debug hw) s) = setPoint s - 1 /\
    processTempIncButton debug hw s =
      updateLights debug hw
        (with_setPoint (setPoint s + 1)
           (exec (if debug then print "Increasing Set Point" else ret tt) s)) /\
    processTempDecButton debug hw s =
      updateLights debug hw
        (with_setPoint (setPoint s - 1)
           (exec (if debug then print "Decreasing Set Point" else ret tt) s)) /\
    (forall n,
       setPoint (exec (run_events debug hw (repeat (Pressed redButton) n)) s)
       = setPoint s + Z.of_nat n) /\
    (forall n,
       setPoint (exec (run_events debug hw (repeat (Pressed blueButton) n)) s)
       = setPoint s - Z.of_nat n).
Proof.
  intros debug hw s.
  assert (Einc : forall s0, processTempIncButton debug hw s0 =
      updateLights debug hw
        (with_setPoint (setPoint s0 + 1)
           (exec (if debug then print "Increasing Set Point" else ret tt) s0))).
  { intros s0. unfold processTempIncButton. destruct debug; reflexivity. }
  assert (Edec : forall s0, processTempDecButton debug hw s0 =
      updateLights debug hw
        (with_setPoint (setPoint s0 - 1)
           (exec (if debug then print "Decreasing Set Point" else ret tt) s0))).
  { intros s0. unfold processTempDecButton. destruct debug; reflexivity. }
  assert (Sinc : forall s0,
            setPoint (exec (processTempIncButton debug hw) s0) = setPoint s0 + 1).
  { intros s0. unfold exec at 1. rewrite Einc.
    destruct (same_tsm_updateLights debug hw
                (with_setPoint (setPoint s0 + 1)
                   (exec (if debug then print "Increasing Set Point" else ret tt) s0)))
      as [_ H].
    unfold exec at 1 in H. rewrite H. destruct debug; reflexivity. }
  assert (Sdec : forall s0,
            setPoint (exec (processTempDecButton debug hw) s0) = setPoint s0 - 1).
  { intros s0. unfold exec at 1. rewrite Edec.
    destruct (same_tsm_updateLights debug hw
                (with_setPoint (setPoint s0 - 1)
                   (exec (if debug then print "Decreasing Set Point" else ret tt) s0)))
      as [_ H].
    unfold exec at 1 in H. rewrite H. destruct debug; reflexivity. }
  repeat split; auto.
  - intros n. revert s. induction n as [|n IH]; intros s.
    + cbn. lia.
    + cbn [repeat run_events]. unfold exec, bind at 1, in_other_thread.
      fold (exec (run_events debug hw (repeat (Pressed redButton) n))
              (exec (dispatch debug hw (Pressed redButton)) s)).
      rewrite IH. cbn [dispatch callback]. rewrite Sinc. lia.
  - intros n. revert s. induction n as [|n IH]; intros s.
    + cbn. lia.
    + cbn [repeat run_events]. unfold exec, bind at 1, in_other_thread.
      fold (exec (run_events debug hw (repeat (Pressed blueButton) n))
              (exec (dispatch debug hw (Pressed blueButton)) s)).
      rewrite IH. cbn [dispatch callback]. rewrite Sdec. lia.
Qed.

(** ** The cycle event *)

Lemma next_in_order_3 m : Nat.iter 3 next_in_order m = m.
Proof. destruct m; reflexivity. Qed.

Lemma iter_next_mod3 n m :
  Nat.iter n next_in_order m = Nat.iter (n mod 3) next_in_order m.
Proof.
  assert (H : forall q r, Nat.iter (3 * q + r) next_in_order m
                          = Nat.iter r next_in_order m).
  { induction q as [|q IH]; intros r.
    - rewrite Nat.mul_0_r. reflexivity.
    - replace (3 * S q + r)%nat with (3 + (3 * q + r))%nat by lia.
      rewrite Nat.iter_add, IH. apply next_in_order_3. }
  rewrite <- (H (n / 3)%nat (n mod 3)%nat).
  f_equal. apply Nat.div_mod_eq.
Qed.

Lemma PyFloat_floor_exn x e :
  PyFloat.floor x = inl e -> e = OverflowError \/ e = ValueError.
Proof.
  unfold PyFloat.floor. destruct (Prim2SF x); intros H; inversion H; auto.
Qed.

Lemma updateLights_exn debug hw s e :
  fst (updateLights debug hw s) = Raise e ->
  e = OSError \/ e = OverflowError \/ e = ValueError.
Proof.
  unfold updateLights, getFahrenheit, thSensor_temperature, floor.
  unfold bind at 1. unfold bind at 1.
  destruct (temperature hw (reads s)) as [t|]; cbn.
  - unfold bind at 1.
    destruct (PyFloat.floor _) as [e'|z] eqn:F; cbn.
    + intros H; inversion H; subst. right. eapply PyFloat_floor_exn; eassumption.
    + destruct debug; cbn.
      * destruct (current_state s); cbn; try discriminate.
        -- destruct (z >=? setPoint s); cbn; discriminate.
        -- destruct (z <=? setPoint s); cbn; discriminate.
      * discriminate.
  - intros H; inversion H; auto.
Qed.

Lemma on_enter_exn debug hw st s e :
  fst (on_enter debug hw st s) = Raise e ->
  e = OSError \/ e = OverflowError \/ e = ValueError.
Proof.
  assert (H : forall (k : M unit),
             (forall s1, fst (k s1) = Ok tt) ->
             fst ((updateLights debug hw ;; k)%py s) = Raise e ->
             e = OSError \/ e = OverflowError \/ e = ValueError).
  { intros k Hk. unfold bind.
    destruct (updateLights debug hw s) as [[[]|e'] s1] eqn:E; cbn.
    - rewrite Hk. discriminate.
    - intros H; inversion H; subst.
      apply (updateLights_exn debug hw s). rewrite E. reflexivity. }
  destruct st; cbn [on_enter].
  - unfold on_enter_off. destruct debug; cbn; discriminate.
  - apply H. intros s1. destruct debug; reflexivity.
  - apply H. intros s1. destruct debug; reflexivity.
Qed.

Lemma send_cycle_run debug hw s :
  send_cycle debug hw s =
  on_enter debug hw (next_in_order (current_state s))
    (with_current_state (next_in_order (current_state s))
       (exec (on_exit (current_state s)) s)).
Proof.
  unfold send_cycle, bind at 1. cbn.
  destruct (current_state s); reflexivity.
Qed.

Lemma same_tsm_on_enter debug hw st : keeps same_tsm (on_enter debug hw st).
Proof.
  pose proof (same_tsm_updateLights debug hw).
  pose proof same_tsm_print.
  destruct same_tsm_leds as (? & ? & ? & ? & ? & ?).
  destruct st; cbn; unfold on_enter_off, on_enter_heat, on_enter_cool; tsm_walk.
Qed.

Lemma send_cycle_state debug hw s :
  current_state (exec (send_cycle debug hw) s) = next_in_order (current_state s).
Proof.
  unfold exec at 1. rewrite send_cycle_run.
  destruct (same_tsm_on_enter debug hw (next_in_order (current_state s))
              (with_current_state (next_in_order (current_state s))
                 (exec (on_exit (current_state s)) s))) as [H _].
  unfold exec at 1 in H. rewrite H. reflexivity.
Qed.

Lemma green_presses_state debug hw n :
  forall s,
    current_state (exec (run_events debug hw (repeat (Pressed greenButton) n)) s)
    = Nat.iter n next_in_order (current_state s).
Proof.
  induction n as [|n IH]; intros s.
  - reflexivity.
  - cbn [repeat run_events]. unfold exec, bind at 1, in_other_thread.
    fold (exec (run_events debug hw (repeat (Pressed greenButton) n))
            (exec (dispatch debug hw (Pressed greenButton)) s)).
    rewrite IH. cbn [dispatch callback].
    assert (E : current_state (exec (processTempStateButton debug hw) s)
                = next_in_order (current_state s)).
    { unfold processTempStateButton. destruct debug.
      - exact (send_cycle_state true hw
                 (exec (print "Cycling Temperature State") s)).
      - exact (send_cycle_state false hw s). }
    rewrite E. rewrite <- Nat.iter_succ_r. reflexivity.
Qed.

Lemma updateLights_returns debug hw s :
  sensor_ok hw -> fst (updateLights debug hw s) = Ok tt.
Proof.
  intros H. destruct (H (reads s)) as (f & z & Hr & Ft).
  unfold reading in Hr.
  destruct (temperature hw (reads s)) as [t|] eqn:Et; [ | discriminate ].
  cbn in Hr. inversion Hr; subst f.
  assert (E : getFahrenheit hw s
              = (Ok ((9 / 5) * t + 32)%float, with_reads (S (reads s)) s)).
  { unfold getFahrenheit, bind, thSensor_temperature. rewrite Et. reflexivity. }
  rewrite (updateLights_run debug hw s _ _ z E Ft). reflexivity.
Qed.

Lemma send_cycle_returns debug hw s :
  sensor_ok hw -> fst (send_cycle debug hw s) = Ok tt.
Proof.
  intros H. rewrite send_cycle_run.
  assert (G : forall (k : M unit) s1,
             (forall s2, fst (k s2) = Ok tt) ->
             fst ((updateLights debug hw ;; k)%py s1) = Ok tt).
  { intros k s1 Hk. unfold bind.
    pose proof (updateLights_returns debug hw s1 H) as R.
    destruct (updateLights debug hw s1) as [[[]|e] s2]; [ apply Hk | discriminate R ]. }
  destruct (current_state s); cbn [next_in_order on_enter].
  - apply G. intros s2. destruct debug; reflexivity.
  - apply G. intros s2. destruct debug; reflexivity.
  - unfold on_enter_off. destruct debug; reflexivity.
Qed.

(** C2.  [off] is the initial state.  From each of the three states the
    cycle event has a transition, to the next state of the order
    Off, Heat, Cool, Off, and [cycle] has no other transition; so the
    dispatch never fails for want of a transition.  A cycle event
    whose hooks return moves [current_state] one step in that order,
    and with a sensor that answers the hooks do return; then after [N]
    cycle events (each the press of the green button) the state is the
    first one advanced [N mod 3] steps. *)
Theorem cycle_order :
  initial_state = Some off /\
  current_state tsm = off /\
  (forall m, cycle_target m = Some (next_in_order m)) /\
  (forall a b, In (a, b) cycle <-> b = next_in_order a) /\
  (forall debug hw s,
     fst (send_cycle debug hw s) <> Raise TransitionNotAllowed /\
     (fst (send_cycle debug hw s) = Ok tt ->
      current_state (exec (send_cycle debug hw) s)
      = next_in_order (current_state s)) /\
     (sensor_ok hw -> fst (send_cycle debug hw s) = Ok tt)) /\
  (forall debug hw N s,
     sensor_ok hw ->
     current_state
       (exec (run_events debug hw (repeat (Pressed greenButton) N)) s)
     = Nat.iter (N mod 3) next_in_order (current_state s)).
Proof.
  split; [reflexivity | split; [reflexivity | ] ].
  split; [ intros []; reflexivity | ].
  split.
  { intros a b. unfold cycle. cbn. split.
    - intros [H|[H|[H|[]]]]; inversion H; reflexivity.
    - intros ->. destruct a; cbn; auto. }
  split.
  - intros debug hw s. split; [ | split ].
    + rewrite send_cycle_run. intros H.
      apply on_enter_exn in H. destruct H as [?|[?|?]]; discriminate.
    + intros _. apply send_cycle_state.
    + apply send_cycle_returns.
  - intros debug hw N s _. rewrite green_presses_state. apply iter_next_mod3.
Qed.

Lemma cycle_order_witness :
  current_state (exec (send_cycle DEBUG (steady 20%float)) tsm) = heat /\
  current_state
    (exec (run_events DEBUG (steady 20%float) (repeat (Pressed greenButton) 4))
       tsm) = heat.
Proof.
  destruct cycle_order as (_ & _ & _ & _ & H5 & H6).
  split.
  - exact (proj1 (proj2 (H5 DEBUG (steady 20%float) tsm)) eq_refl).
  - exact (H6 DEBUG (steady 20%float) 4%nat tsm
             (fun n => ex_intro _ 68%float
                         (ex_intro _ 68 (conj eq_refl eq_refl)))).
Defined.

(** ** The display loop *)

Lemma sched_refl s : same_sched s s.
Proof. repeat split. rewrite app_nil_r. reflexivity. Qed.

Lemma sched_trans e1 e2 a b c :
  sched e1 a b -> sched e2 b c -> sched (e1 ++ e2) a c.
Proof.
  intros (A1 & A2 & A3) (B1 & B2 & B3). repeat split; try congruence.
  rewrite B3, A3, app_assoc. reflexivity.
Qed.

Lemma same_sched_trans a b c : same_sched a b -> same_sched b c -> same_sched a c.
Proof. intros H1 H2. exact (sched_trans [] [] a b c H1 H2). Qed.

Ltac sched_walk := keeps_walk sched_refl same_sched_trans.

Lemma transmissions_snoc lg t c :
  transmissions (lg ++ [(t, c)]) =
  (transmissions lg ++ (if is_SerWrite c then [S t] else []))%list.
Proof.
  unfold transmissions. rewrite filter_app, map_app. cbn.
  destruct (is_SerWrite c); reflexivity.
Qed.

Lemma same_sched_emit c : is_SerWrite c = false -> keeps same_sched (emit c).
Proof.
  intros H s. repeat split; cbn; rewrite ?transmissions_snoc, ?H; reflexivity.
Qed.

Lemma same_sched_print line : keeps same_sched (print line).
Proof. intros s. repeat split; cbn. rewrite app_nil_r. reflexivity. Qed.

Lemma same_sched_leds :
  keeps same_sched redLight_off /\ keeps same_sched redLight_on /\
  keeps same_sched redLight_pulse /\ keeps same_sched blueLight_off /\
  keeps same_sched blueLight_on /\ keeps same_sched blueLight_pulse.
Proof.
  repeat split; cbn; rewrite ?transmissions_snoc, ?app_nil_r; reflexivity.
Qed.

Lemma same_sched_getFahrenheit hw : keeps same_sched (getFahrenheit hw).
Proof.
  intros s. unfold exec, getFahrenheit, bind, thSensor_temperature.
  destruct (temperature hw (reads s)); repeat split; cbn;
    rewrite app_nil_r; reflexivity.
Qed.

Lemma same_sched_updateLights debug hw : keeps same_sched (updateLights debug hw).
Proof.
  pose proof (same_sched_getFahrenheit hw).
  pose proof same_sched_print.
  destruct same_sched_leds as (? & ? & ? & ? & ? & ?).
  unfold updateLights. sched_walk.
Qed.

Lemma same_sched_callback debug hw b : keeps same_sched (callback debug hw b).
Proof.
  pose proof (same_sched_updateLights debug hw).
  pose proof same_sched_print.
  destruct same_sched_leds as (? & ? & ? & ? & ? & ?).
  destruct b; cbn;
    unfold processTempStateButton, processTempIncButton, processTempDecButton,
      send_cycle; sched_walk;
    try (apply keeps_modify; intros ?; repeat split; cbn;
         rewrite app_nil_r; reflexivity).
  all: unfold on_exit, on_enter, on_enter_heat, on_enter_cool, on_enter_off,
         on_exit_heat, on_exit_cool; sched_walk;
    try (apply keeps_modify; intros ?; repeat split; cbn;
         rewrite app_nil_r; reflexivity).
Qed.

Lemma same_sched_run_events debug hw es :
  ~ In KeyboardInterrupt es -> keeps same_sched (run_events debug hw es).
Proof.
  induction es as [|e es IH]; intros Hn; cbn [run_events].
  - sched_walk.
  - assert (keeps same_sched (run_events debug hw es)).
    { apply IH. intros Hin. apply Hn. right. exact Hin. }
    destruct e as [b|]; [ | exfalso; apply Hn; left; reflexivity ].
    pose proof (same_sched_callback debug hw b). cbn [dispatch]. sched_walk.
Qed.

(** *** One iteration when nothing fails *)

Lemma bind_ok {A B} (c : M A) (k : A -> M B) s a s1 :
  c s = (Ok a, s1) -> bind c k s = k a s1.
Proof. intros E. unfold bind. rewrite E. reflexivity. Qed.

Lemma bind_raise {A B} (c : M A) (k : A -> M B) s e s1 :
  c s = (Raise e, s1) -> bind c k s = (Raise e, s1).
Proof. intros E. unfold bind. rewrite E. reflexivity. Qed.

Lemma getFahrenheit_ok hw s :
  sensor_ok hw ->
  exists f z,
    getFahrenheit hw s = (Ok f, with_reads (S (reads s)) s) /\
    reading hw (reads s) = Some f /\ PyFloat.floor f = inr z.
Proof.
  intros Hs. destruct (Hs (reads s)) as (f & z & Hr & Hf).
  exists f, z. split; [ | split; assumption ].
  unfold reading in Hr. unfold getFahrenheit, bind, thSensor_temperature.
  destruct (temperature hw (reads s)) as [t|]; [ | discriminate ].
  cbn in Hr. inversion Hr. reflexivity.
Qed.

Lemma updateLights_ok debug hw s :
  healthy hw ->
  exists s', updateLights debug hw s = (Ok tt, s') /\ same_sched s s' /\ same_tsm s s'.
Proof.
  intros H. destruct (getFahrenheit_ok hw s (proj1 H)) as (f & z & E & _ & F).
  pose proof (updateLights_run debug hw s f _ z E F) as R. cbv zeta in R.
  eexists. split; [ exact R | ].
  pose proof (same_sched_updateLights debug hw s) as H1.
  pose proof (same_tsm_updateLights debug hw s) as H2.
  unfold exec in H1, H2. rewrite R in H1, H2. split; assumption.
Qed.

Lemma same_tsm_update_server debug hw c : keeps same_tsm (update_server debug hw c).
Proof.
  pose proof (same_tsm_getFahrenheit hw).
  pose proof same_tsm_print.
  unfold update_server, setupSerialOutput. tsm_walk.
  intros s. unfold exec, ser_write.
  destruct (write_ok hw (writes s)); split; reflexivity.
Qed.

Lemma setupSerialOutput_ok hw s :
  sensor_ok hw ->
  exists f,
    setupSerialOutput hw s =
      (Ok (status_line (current_state s) f (setPoint s)),
       with_reads (S (reads s)) s) /\
    reading hw (reads s) = Some f.
Proof.
  intros H. destruct (getFahrenheit_ok hw s H) as (f & z & E & Hr & _).
  exists f. split; [ | exact Hr ].
  unfold setupSerialOutput. unfold bind at 1. cbn [gets].
  rewrite (bind_ok _ _ _ _ _ E). reflexivity.
Qed.

Lemma ser_write_ok hw data s :
  write_ok hw (writes s) = true ->
  ser_write hw data s =
    (Ok tt,
     with_log (log s ++ [(elapsed s, SerWrite data)])%list
       (with_writes (S (writes s)) s)).
Proof.
  intros H. unfold ser_write. rewrite H. reflexivity.
Qed.

Lemma ser_write_fail hw data s :
  write_ok hw (writes s) = false ->
  ser_write hw data s = (Raise SerialException, with_writes (S (writes s)) s).
Proof.
  intros H. unfold ser_write. rewrite H. reflexivity.
Qed.

Lemma setup_line_2_sched debug hw a s :
  healthy hw ->
  exists line s',
    setup_line_2 debug hw a s = (Ok (line, next_altCounter a), s') /\
    same_sched s s' /\ same_tsm s s'.
Proof.
  intros H. unfold setup_line_2, next_altCounter.
  destruct (a <? 6).
  - destruct (getFahrenheit_ok hw s (proj1 H)) as (f & z & E & _ & _).
    rewrite (bind_ok _ _ _ _ _ E). eexists. eexists. split; [ reflexivity | ].
    pose proof (same_sched_getFahrenheit hw s) as H1.
    pose proof (same_tsm_getFahrenheit hw s) as H2. unfold exec in H1, H2.
    rewrite E in H1, H2. split; assumption.
  - cbn. destruct (a + 1 >=? 11).
    + destruct (updateLights_ok debug hw s H) as (s' & E & R & T).
      rewrite (bind_ok _ _ _ _ _ E). eexists. eexists.
      split; [ reflexivity | split; assumption ].
    + eexists. eexists.
      split; [ reflexivity | split; [ apply sched_refl | apply same_tsm_refl ] ].
Qed.

Lemma update_server_sched debug hw c s :
  healthy hw ->
  exists s',
    update_server debug hw c s = (Ok (next_counter c), s') /\
    sched (if c mod 30 =? 0 then [S (elapsed s)] else []) s s' /\
    (c mod 30 = 0 -> status_sent hw s s').
Proof.
  intros H. unfold update_server, next_counter.
  assert (G : forall s0, same_sched s s0 -> same_tsm s s0 ->
    exists s',
      (if c mod 30 =? 0
       then output <- setupSerialOutput hw ;; ser_write hw output ;; ret 1
       else ret (c + 1)) s0 = (Ok (if c mod 30 =? 0 then 1 else c + 1), s') /\
      sched (if c mod 30 =? 0 then [S (elapsed s)] else []) s s' /\
      (c mod 30 = 0 -> status_sent hw s s')).
  { intros s0 R0 [T1 T2]. destruct (Z.eqb_spec (c mod 30) 0) as [Hc|Hc].
    - destruct (setupSerialOutput_ok hw s0 (proj1 H)) as (f & E & Hr).
      rewrite (bind_ok _ _ _ _ _ E).
      rewrite (bind_ok _ _ _ _ _ (ser_write_ok hw _ _ (proj2 H _))).
      eexists. split; [ reflexivity | ].
      destruct R0 as (R1 & R2 & R3). split.
      + repeat split; cbn; try assumption.
        rewrite transmissions_snoc. cbn. rewrite R3, app_nil_r, R1. reflexivity.
      + intros _. exists (log s0), f, (reads s0). split; [ exact Hr | ].
        cbn. rewrite T1, T2, R1. reflexivity.
    - eexists. split; [ reflexivity | split; [ exact R0 | contradiction ] ]. }
  destruct debug.
  - unfold bind at 1. cbn [print modify]. apply G.
    + repeat split; cbn. rewrite app_nil_r. reflexivity.
    + split; reflexivity.
  - unfold bind at 1. cbn [ret]. apply G; [ apply sched_refl | apply same_tsm_refl ].
Qed.

Lemma tick_sched debug hw l s :
  healthy hw ->
  exists s',
    tick debug hw l s = (Ok (next_locals l), s') /\
    sched (if counter l mod 30 =? 0 then [S (elapsed s)] else []) s s' /\
    same_tsm s s' /\
    (counter l mod 30 = 0 -> status_sent hw s s').
Proof.
  intros H. unfold tick.
  set (s0 := exec (if debug then print "Processing Display Info..." else ret tt) s).
  assert (R0 : same_sched s s0 /\ same_tsm s s0).
  { subst s0. destruct debug; repeat split; cbn; rewrite app_nil_r; reflexivity. }
  assert (E0 : (if debug then print "Processing Display Info..." else ret tt) s
               = (Ok tt, s0)).
  { subst s0. destruct debug; reflexivity. }
  rewrite (bind_ok _ _ _ _ _ E0).
  unfold bind at 1. unfold datetime_now at 1.
  set (s1 := with_clock_calls (S (clock_calls s0)) s0).
  assert (R1 : same_sched s s1 /\ same_tsm s s1).
  { destruct R0 as [R0 T0]. split.
    - eapply same_sched_trans; [ exact R0 | ].
      subst s1. repeat split; cbn. rewrite app_nil_r. reflexivity.
    - eapply same_tsm_trans; [ exact T0 | ]. subst s1. split; reflexivity. }
  destruct (setup_line_2_sched debug hw (altCounter l) s1 H)
    as (line & s2 & E2 & R2 & T2).
  rewrite (bind_ok _ _ _ _ _ E2).
  unfold updateScreen. unfold bind at 1. unfold bind at 1.
  cbn [emit modify fst snd].
  match goal with
  | |- exists s', bind _ _ ?s3' = _ /\ _ => set (s3 := s3')
  end.
  assert (R3 : same_sched s s3 /\ same_tsm s s3).
  { destruct R1 as [R1 T1]. split.
    - eapply same_sched_trans; [ exact R1 | ].
      eapply same_sched_trans; [ exact R2 | ].
      subst s3. repeat split; cbn. rewrite !transmissions_snoc. cbn.
      rewrite !app_nil_r. reflexivity.
    - eapply same_tsm_trans; [ exact T1 | ].
      eapply same_tsm_trans; [ exact T2 | ]. subst s3. split; reflexivity. }
  destruct R3 as [R3 T3].
  destruct (update_server_sched debug hw (counter l) s3 H) as (s4 & E4 & R4 & C4).
  rewrite (bind_ok _ _ _ _ _ E4). exists s4. split; [ reflexivity | ].
  pose proof (sched_trans _ _ _ _ _ R3 R4) as R. cbn [app] in R.
  pose proof R3 as (R31 & _ & _). rewrite R31 in R.
  split; [ exact R | split ].
  - eapply same_tsm_trans; [ exact T3 | ].
    pose proof (same_tsm_update_server debug hw (counter l) s3) as T4.
    unfold exec in T4. rewrite E4 in T4. exact T4.
  - intros Hc. destruct (C4 Hc) as (lg & f & n & Hr & Hl).
    exists lg, f, n. split; [ exact Hr | ].
    destruct T3 as [T31 T32]. rewrite Hl, T31, T32, R31. reflexivity.
Qed.

Lemma run_events_ok debug hw es s :
  run_events debug hw es s = (Ok tt, exec (run_events debug hw es) s).
Proof.
  revert s. induction es as [|e es IH]; intros s; [ reflexivity | ].
  cbn [run_events]. unfold exec, bind, in_other_thread.
  rewrite IH. reflexivity.
Qed.

Lemma sleep_run debug hw s :
  sleep debug hw s =
  (Ok tt,
   with_elapsed (S (elapsed (exec (run_events debug hw (events hw (elapsed s))) s)))
     (exec (run_events debug hw (events hw (elapsed s))) s)).
Proof.
  unfold sleep. unfold bind at 1. cbn [gets].
  rewrite (bind_ok _ _ _ _ _ (run_events_ok debug hw _ s)). reflexivity.
Qed.

Lemma loop_body_sched debug hw l s :
  healthy hw ->
  ~ In KeyboardInterrupt (events hw (elapsed s)) ->
  exists s',
    loop_body debug hw l s = (Ok (next_locals l), s') /\
    elapsed s' = S (elapsed s) /\
    endDisplay s' = endDisplay s /\
    transmissions (log s') =
      (transmissions (log s) ++
       (if counter l mod 30 =? 0 then [S (elapsed s)] else []))%list.
Proof.
  intros H Hn. unfold loop_body.
  destruct (tick_sched debug hw l s H) as (s1 & E1 & (R1 & R2 & R3) & _ & _).
  rewrite (bind_ok _ _ _ _ _ E1).
  rewrite (bind_ok _ _ _ _ _ (sleep_run debug hw s1)).
  eexists. split; [ reflexivity | ].
  rewrite R1 in *.
  destruct (same_sched_run_events debug hw _ Hn s1) as (Q1 & Q2 & Q3).
  cbn. rewrite Q1, Q2, Q3, R1, R2, R3, app_nil_r. repeat split.
Qed.

Lemma while_loop_run debug hw :
  healthy hw -> uninterrupted hw ->
  forall n l s,
    endDisplay s = false ->
    exists s',
      while_loop debug hw n l s = (Ok (Running (Nat.iter n next_locals l)), s') /\
      elapsed s' = (elapsed s + n)%nat /\
      endDisplay s' = false /\
      transmissions (log s') =
        (transmissions (log s) ++ report_ticks n (counter l) (elapsed s))%list.
Proof.
  intros H Hu. induction n as [|n IH]; intros l s He.
  - exists s. cbn. rewrite Nat.add_0_r, app_nil_r. repeat split. exact He.
  - cbn [while_loop]. unfold bind at 1. cbn [gets]. rewrite He.
    destruct (loop_body_sched debug hw l s H (Hu _)) as (s1 & E1 & A1 & A2 & A3).
    rewrite (bind_ok _ _ _ _ _ E1).
    destruct (IH (next_locals l) s1) as (s2 & E2 & B1 & B2 & B3).
    { rewrite A2. exact He. }
    exists s2. rewrite E2. rewrite <- Nat.iter_succ_r.
    split; [ reflexivity | ].
    split; [ rewrite B1, A1; lia | ].
    split; [ exact B2 | ].
    rewrite B3, A3, A1. cbn [report_ticks next_locals counter].
    rewrite <- app_assoc. reflexivity.
Qed.

Lemma succ_mod_30 n :
  (S n mod 30 = if n mod 30 =? 29 then 0 else S (n mod 30))%nat.
Proof.
  pose proof (Nat.div_mod_eq n 30) as E.
  pose proof (Nat.mod_upper_bound n 30 ltac:(lia)) as B.
  destruct (Nat.eqb_spec (n mod 30) 29) as [H|H].
  - symmetry. apply (Nat.mod_unique (S n) 30 (S (n / 30)) 0); lia.
  - symmetry. apply (Nat.mod_unique (S n) 30 (n / 30) (S (n mod 30))); lia.
Qed.

Lemma succ_mod_10 n :
  (S n mod 10 = if n mod 10 =? 9 then 0 else S (n mod 10))%nat.
Proof.
  pose proof (Nat.div_mod_eq n 10) as E.
  pose proof (Nat.mod_upper_bound n 10 ltac:(lia)) as B.
  destruct (Nat.eqb_spec (n mod 10) 9) as [H|H].
  - symmetry. apply (Nat.mod_unique (S n) 10 (S (n / 10)) 0); lia.
  - symmetry. apply (Nat.mod_unique (S n) 10 (n / 10) (S (n mod 10))); lia.
Qed.

Lemma next_counter_mod n :
  next_counter (Z.of_nat (n mod 30) + 1) = Z.of_nat (S n mod 30) + 1 /\
  ((Z.of_nat (n mod 30) + 1) mod 30 =? 0) = (S n mod 30 =? 0)%nat.
Proof.
  pose proof (Nat.mod_upper_bound n 30 ltac:(lia)) as B.
  rewrite succ_mod_30. unfold next_counter.
  destruct (Nat.eqb_spec (n mod 30) 29) as [H|H].
  - rewrite H. split; reflexivity.
  - assert (E : (Z.of_nat (n mod 30) + 1) mod 30 = Z.of_nat (n mod 30) + 1).
    { apply Z.mod_small. lia. }
    rewrite E. destruct (Z.eqb_spec (Z.of_nat (n mod 30) + 1) 0); [ lia | ].
    split; [ lia | reflexivity ].
Qed.

Lemma next_altCounter_mod n :
  next_altCounter (Z.of_nat (n mod 10) + 1) = Z.of_nat (S n mod 10) + 1.
Proof.
  pose proof (Nat.mod_upper_bound n 10 ltac:(lia)) as B.
  rewrite succ_mod_10. unfold next_altCounter.
  destruct (Nat.eqb_spec (n mod 10) 9) as [H|H].
  - rewrite H. reflexivity.
  - destruct (Z.ltb_spec (Z.of_nat (n mod 10) + 1) 6); [ lia | ].
    destruct (Z.geb_spec (Z.of_nat (n mod 10) + 1 + 1) 11); lia.
Qed.

(** The loop variables after [n] iterations of [manageMyDisplay]. *)
Lemma locals_after n :
  Nat.iter n next_locals {| counter := 1; altCounter := 1 |} =
  {| counter := Z.of_nat (n mod 30) + 1; altCounter := Z.of_nat (n mod 10) + 1 |}.
Proof.
  induction n as [|n IH]; [ reflexivity | ].
  cbn [Nat.iter nat_rect]. unfold Nat.iter in IH. rewrite IH.
  unfold next_locals. cbn [counter altCounter].
  rewrite (proj1 (next_counter_mod n)), next_altCounter_mod. reflexivity.
Qed.

Lemma report_ticks_closed n :
  forall t,
    report_ticks n (Z.of_nat (t mod 30) + 1) t =
    filter (fun k => (k mod 30 =? 0)%nat) (seq (S t) n).
Proof.
  induction n as [|n IH]; intros t; [ reflexivity | ].
  cbn [report_ticks seq filter].
  destruct (next_counter_mod t) as [E1 E2]. rewrite E1, E2, IH.
  destruct (S t mod 30 =? 0)%nat; reflexivity.
Qed.

Lemma steady_healthy t z :
  PyFloat.floor ((9 / 5) * t + 32)%float = inr z -> healthy (steady t).
Proof.
  intros F. split; intros n; [ | reflexivity ].
  exists ((9 / 5) * t + 32)%float, z. split; [ reflexivity | exact F ].
Qed.

Lemma steady_uninterrupted t : uninterrupted (steady t).
Proof. intros n H. exact H. Qed.

(** C3.  When nothing fails, an iteration that starts with [counter]
    between 1 and 29 adds one to it and writes nothing on the serial
    port; one that starts with [counter = 30] writes the status line of
    the current state, reading and setpoint and sets [counter] back to
    1; [counter] stays between 1 and 30.  So [n] iterations from the
    start of [manageMyDisplay] leave [counter = n mod 30 + 1] and have
    written a status line in exactly the iterations that are multiples
    of 30: in 90 iterations, the 30th, 60th and 90th and no other. *)
Theorem report_cadence :
  forall debug hw,
    healthy hw ->
    (forall l s,
       1 <= counter l <= 30 ->
       exists s',
         tick debug hw l s = (Ok (next_locals l), s') /\
         1 <= counter (next_locals l) <= 30 /\
         (counter l < 30 ->
            counter (next_locals l) = counter l + 1 /\
            transmissions (log s') = transmissions (log s)) /\
         (counter l = 30 ->
            counter (next_locals l) = 1 /\
            transmissions (log s') = (transmissions (log s) ++ [S (elapsed s)])%list /\
            status_sent hw s s')) /\
    (uninterrupted hw ->
     forall s,
       endDisplay s = false -> elapsed s = 0%nat -> transmissions (log s) = [] ->
       (forall n,
          exists l s',
            manageMyDisplay debug hw n s = (Ok (Running l), s') /\
            counter l = Z.of_nat (n mod 30) + 1 /\
            transmissions (log s') =
              filter (fun k => (k mod 30 =? 0)%nat) (seq 1 n)) /\
       (exists l s',
          manageMyDisplay debug hw 90 s = (Ok (Running l), s') /\
          transmissions (log s') = [30; 60; 90]%nat)).
Proof.
  intros debug hw H. split.
  - intros l s Hc.
    destruct (tick_sched debug hw l s H) as (s' & E & (_ & _ & R) & _ & C).
    exists s'. split; [ exact E | ].
    unfold next_locals, next_counter. cbn [counter].
    destruct (Z.eqb_spec (counter l mod 30) 0) as [Hm|Hm].
    + assert (counter l = 30).
      { pose proof (Z.div_mod (counter l) 30 ltac:(lia)) as D.
        rewrite Hm in D.
        assert (counter l / 30 = 1) by lia. lia. }
      split; [ lia | ]. split; [ lia | ].
      intros _. split; [ reflexivity | ]. split; [ exact R | exact (C Hm) ].
    + assert (counter l < 30).
      { destruct (Z.eq_dec (counter l) 30) as [E30|N30]; [ | lia ].
        rewrite E30 in Hm. exfalso. apply Hm. reflexivity. }
      split; [ lia | ]. split; [ | lia ].
      intros _. split; [ reflexivity | ]. rewrite R, app_nil_r. reflexivity.
  - intros Hu s He Ht Hl.
    assert (G : forall n,
              exists l s',
                manageMyDisplay debug hw n s = (Ok (Running l), s') /\
                counter l = Z.of_nat (n mod 30) + 1 /\
                transmissions (log s') =
                  filter (fun k => (k mod 30 =? 0)%nat) (seq 1 n)).
    { intros n. unfold manageMyDisplay.
      destruct (while_loop_run debug hw H Hu n {| counter := 1; altCounter := 1 |} s He)
        as (s' & E & _ & _ & T).
      rewrite locals_after in E. eexists. exists s'.
      split; [ exact E | ]. split; [ reflexivity | ].
      rewrite T, Hl, Ht. cbn [app counter].
      exact (report_ticks_closed n 0). }
    split; [ exact G | ].
    destruct (G 90%nat) as (l & s' & E & _ & T).
    exists l, s'. split; [ exact E | ]. rewrite T. reflexivity.
Qed.

Lemma report_cadence_witness :
  exists l s',
    manageMyDisplay DEBUG (steady 20%float) 90 tsm = (Ok (Running l), s') /\
    transmissions (log s') = [30; 60; 90]%nat.
Proof.
  exact (proj2 (proj2 (report_cadence DEBUG (steady 20%float)
                         (steady_healthy 20%float 68 eq_refl))
                  (steady_uninterrupted 20%float) tsm eq_refl eq_refl eq_refl)).
Defined.

(** ** The second line of the display *)

Lemma same_panel_refl s : same_panel s s.
Proof. repeat split. Qed.

Lemma same_panel_trans a b c : same_panel a b -> same_panel b c -> same_panel a c.
Proof. unfold same_panel. intuition congruence. Qed.

Ltac panel_walk := keeps_walk same_panel_refl same_panel_trans.

Lemma shown_app lg1 lg2 : shown (lg1 ++ lg2) = (shown lg1 ++ shown lg2)%list.
Proof. unfold shown. apply flat_map_app. Qed.

Lemma led_cmds_app lg1 lg2 :
  led_cmds (lg1 ++ lg2) = (led_cmds lg1 ++ led_cmds lg2)%list.
Proof. unfold led_cmds. rewrite map_app, filter_app. reflexivity. Qed.

Lemma shown_snoc lg t c :
  shown (lg ++ [(t, c)]) =
  (shown lg ++ match c with LcdMessage m => [(t, m)] | _ => [] end)%list.
Proof.
  rewrite shown_app. unfold shown. cbn. rewrite app_nil_r. reflexivity.
Qed.

Lemma led_cmds_snoc lg t c :
  led_cmds (lg ++ [(t, c)]) = (led_cmds lg ++ if is_led c then [c] else [])%list.
Proof.
  rewrite led_cmds_app. unfold led_cmds. cbn. destruct (is_led c); reflexivity.
Qed.

Lemma shown_stamped_leds s cs :
  forallb is_led cs = true -> shown (stamped s cs) = [].
Proof.
  induction cs as [|c cs IH]; intros H; [ reflexivity | ].
  cbn in H. apply andb_prop in H. destruct H as [Hc Hcs].
  unfold shown, stamped in *. cbn. rewrite (IH Hcs).
  destruct c; try discriminate; reflexivity.
Qed.

Lemma led_cmds_stamped_leds s cs :
  forallb is_led cs = true -> led_cmds (stamped s cs) = cs.
Proof.
  induction cs as [|c cs IH]; intros H; [ reflexivity | ].
  cbn in H. apply andb_prop in H. destruct H as [Hc Hcs].
  unfold led_cmds, stamped in *. cbn. rewrite Hc, (IH Hcs). reflexivity.
Qed.

Lemma match_cmd_leds (debug : bool) st sp temp :
  forallb is_led
    (RedOff :: BlueOff :: (if debug then match_cmd st sp temp else [])) = true.
Proof.
  unfold match_cmd.
  destruct debug; [ destruct st | ]; cbn; try reflexivity;
    [ destruct (temp >=? sp) | destruct (temp <=? sp) ]; reflexivity.
Qed.

Lemma same_panel_print line : keeps same_panel (print line).
Proof. intros s. repeat split. Qed.

Lemma same_panel_getFahrenheit hw : keeps same_panel (getFahrenheit hw).
Proof.
  intros s. unfold exec, getFahrenheit, bind, thSensor_temperature.
  destruct (temperature hw (reads s)); repeat split.
Qed.

Lemma same_panel_update_server debug hw c :
  keeps same_panel (update_server debug hw c).
Proof.
  pose proof (same_panel_getFahrenheit hw).
  pose proof same_panel_print.
  unfold update_server, setupSerialOutput. panel_walk.
  intros s. unfold exec, ser_write.
  destruct (write_ok hw (writes s)); repeat split; cbn.
  - rewrite shown_app. cbn. apply app_nil_r.
  - rewrite led_cmds_app. cbn. apply app_nil_r.
Qed.

Lemma next_altCounter_resync a :
  next_altCounter a = if resync a then 1 else a + 1.
Proof.
  unfold next_altCounter, resync.
  destruct (a <? 6); [ reflexivity | ]. destruct (a + 1 >=? 11); reflexivity.
Qed.

Lemma setup_line_2_run (debug : bool) hw a s f temp :
  reading hw (reads s) = Some f ->
  PyFloat.floor f = inr temp ->
  exists s',
    setup_line_2 debug hw a s = (Ok (line_2_text a s f, next_altCounter a), s') /\
    elapsed s' = elapsed s /\
    (if resync a
     then s' = exec (updateLights debug hw) s /\
          fst (updateLights debug hw s) = Ok tt
     else same_panel s s').
Proof.
  intros Hr Ft.
  assert (E : getFahrenheit hw s = (Ok f, with_reads (S (reads s)) s)).
  { unfold reading in Hr. unfold getFahrenheit, bind, thSensor_temperature.
    destruct (temperature hw (reads s)) as [t|]; [ | discriminate ].
    cbn in Hr. inversion Hr. reflexivity. }
  unfold setup_line_2, line_2_text, next_altCounter, resync.
  destruct (a <? 6).
  - rewrite (bind_ok _ _ _ _ _ E). eexists. split; [ reflexivity | ].
    split; [ reflexivity | repeat split ].
  - cbn [bind gets]. destruct (a + 1 >=? 11).
    + pose proof (updateLights_run debug hw s f _ temp E Ft) as R. cbv zeta in R.
      rewrite (bind_ok _ _ _ _ _ R). eexists. split; [ reflexivity | ].
      unfold exec. rewrite R. repeat split.
    + eexists. split; [ reflexivity | ]. split; [ reflexivity | repeat split ].
Qed.

Lemma updateLights_panel (debug : bool) hw s f temp :
  reading hw (reads s) = Some f ->
  PyFloat.floor f = inr temp ->
  let cs := if debug then match_cmd (current_state s) (setPoint s) temp else [] in
  let s' := exec (updateLights debug hw) s in
  shown (log s') = shown (log s) /\
  led_cmds (log s') = (led_cmds (log s) ++ RedOff :: BlueOff :: cs)%list /\
  (redLight s', blueLight s') = leds_after cs (Off, Off).
Proof.
  intros Hr Ft cs s'.
  assert (E : getFahrenheit hw s = (Ok f, with_reads (S (reads s)) s)).
  { unfold reading in Hr. unfold getFahrenheit, bind, thSensor_temperature.
    destruct (temperature hw (reads s)) as [t|]; [ | discriminate ].
    cbn in Hr. inversion Hr. reflexivity. }
  pose proof (updateLights_run debug hw s f _ temp E Ft) as R. cbv zeta in R.
  subst s'. unfold exec. rewrite R. cbn [snd log with_stdout with_log redLight
    blueLight with_redLight with_blueLight with_reads].
  rewrite shown_app, led_cmds_app.
  rewrite (shown_stamped_leds s _ (match_cmd_leds debug _ _ _)).
  rewrite (led_cmds_stamped_leds s _ (match_cmd_leds debug _ _ _)).
  rewrite app_nil_r. split; [ reflexivity | ]. split; [ reflexivity | ].
  subst cs. destruct (leds_after _ _). reflexivity.
Qed.

(** C5.  When nothing fails, an iteration of the display loop that
    starts with [altCounter] from 1 to 5 shows "T:<temp>F" on the second
    line, with the reading of that iteration to one decimal place, and
    sends nothing to the LEDs; one that starts with [altCounter] from 6
    to 10 shows "ST:<state> Set:<setPoint>F".  [altCounter] goes up by
    one except in the iteration that starts with 10: that one runs
    [updateLights] (the LEDs get its commands and end as it leaves
    them) and sets [altCounter] back to 1.  After [n] iterations of
    [manageMyDisplay], [altCounter] is [n mod 10 + 1]: in every window
    of ten iterations the first five show the temperature, the other
    five the state, and the tenth resyncs the LEDs. *)
Theorem display_alternation :
  forall debug hw,
    healthy hw ->
    (forall l s,
       1 <= altCounter l <= 10 ->
       exists f s',
         reading hw (reads s) = Some f /\
         tick debug hw l s = (Ok (next_locals l), s') /\
         let line_1 := strftime (now hw (clock_calls s)) in
         (altCounter l <= 5 ->
            shown (log s') =
              (shown (log s) ++
               [(elapsed s,
                 (line_1 ++ "T:" ++ PyFloat.format_1f f ++ "F")%string)])%list /\
            altCounter (next_locals l) = altCounter l + 1 /\
            led_cmds (log s') = led_cmds (log s)) /\
         (6 <= altCounter l ->
            shown (log s') =
              (shown (log s) ++
               [(elapsed s,
                 (line_1 ++ "ST:" ++ id (current_state s) ++
                  " Set:" ++ str (setPoint s) ++ "F")%string)])%list) /\
         (6 <= altCounter l <= 9 ->
            altCounter (next_locals l) = altCounter l + 1 /\
            led_cmds (log s') = led_cmds (log s)) /\
         (altCounter l = 10 ->
            altCounter (next_locals l) = 1 /\
            led_cmds (log s') = led_cmds (log (exec (updateLights debug hw) s)) /\
            redLight s' = redLight (exec (updateLights debug hw) s) /\
            blueLight s' = blueLight (exec (updateLights debug hw) s))) /\
    (uninterrupted hw ->
     forall s n,
       endDisplay s = false ->
       exists l s',
         manageMyDisplay debug hw n s = (Ok (Running l), s') /\
         altCounter l = Z.of_nat (n mod 10) + 1).
Proof.
  intros debug hw H. split.
  - intros l s Ha.
    destruct (proj1 H (reads s)) as (f & temp & Hr & Ft).
    exists f.
    set (s0 := exec (if debug then print "Processing Display Info..." else ret tt) s).
    assert (E0 : (if debug then print "Processing Display Info..." else ret tt) s
                 = (Ok tt, s0)).
    { subst s0. destruct debug; reflexivity. }
    set (s1 := with_clock_calls (S (clock_calls s0)) s0).
    assert (F1 : reads s1 = reads s /\ log s1 = log s /\ elapsed s1 = elapsed s /\
                 current_state s1 = current_state s /\ setPoint s1 = setPoint s /\
                 clock_calls s0 = clock_calls s).
    { subst s1 s0. destruct debug; repeat split. }
    destruct F1 as (Frd & Flog & Fel & Fst & Fsp & Fck).
    destruct (setup_line_2_run debug hw (altCounter l) s1 f temp)
      as (s2 & E2 & El2 & P2); [ rewrite Frd; exact Hr | exact Ft | ].
    set (msg := (strftime (now hw (clock_calls s)) ++
                 line_2_text (altCounter l) s1 f)).
    set (s3 := with_log
                 (log (with_log (log s2 ++ [(elapsed s2, LcdClear)])%list s2) ++
                  [(elapsed (with_log (log s2 ++ [(elapsed s2, LcdClear)])%list s2),
                    LcdMessage msg)])%list
                 (with_log (log s2 ++ [(elapsed s2, LcdClear)])%list s2)).
    destruct (update_server_sched debug hw (counter l) s3 H) as (s4 & E4 & _ & _).
    pose proof (same_panel_update_server debug hw (counter l) s3) as P4.
    unfold exec in P4. rewrite E4 in P4. cbn [snd] in P4.
    destruct P4 as (P41 & P42 & P43 & P44).
    assert (Et : tick debug hw l s = (Ok (next_locals l), s4)).
    { unfold tick. rewrite (bind_ok _ _ _ _ _ E0).
      unfold bind at 1. unfold datetime_now at 1. fold s1.
      rewrite (bind_ok _ _ _ _ _ E2).
      unfold bind at 1. unfold updateScreen, bind at 1. cbn [emit modify fst snd].
      rewrite Fck.
      match goal with
      | |- bind _ _ ?s3' = _ => change s3' with s3
      end.
      rewrite (bind_ok _ _ _ _ _ E4). reflexivity. }
    exists s4. split; [ exact Hr | ]. split; [ exact Et | ].
    assert (Sh : shown (log s4) = (shown (log s2) ++ [(elapsed s, msg)])%list).
    { rewrite P41. subst s3. cbn [log with_log elapsed].
      rewrite !shown_snoc. cbn. rewrite app_nil_r, El2, Fel. reflexivity. }
    assert (Ld : led_cmds (log s4) = led_cmds (log s2)).
    { rewrite P42. subst s3. cbn [log with_log elapsed].
      rewrite !led_cmds_snoc. cbn. rewrite !app_nil_r. reflexivity. }
    cbv zeta. unfold next_locals. cbn [altCounter].
    rewrite next_altCounter_resync.
    unfold resync in *. subst msg. unfold line_2_text in *.
    destruct (Z.ltb_spec (altCounter l) 6) as [Hlt|Hge].
    + destruct P2 as (Q1 & Q2 & _ & _). rewrite Flog in Q1, Q2.
      split; [ | split; [ | split ] ]; intros Hb; try lia.
      rewrite Sh, Ld, Q1, Q2. repeat split.
    + destruct (Z.geb_spec (altCounter l + 1) 11) as [H10|H9].
      * destruct P2 as (Q1 & _).
        destruct (updateLights_panel debug hw s1 f temp) as (U1 & U2 & U3);
          [ rewrite Frd; exact Hr | exact Ft | ].
        destruct (updateLights_panel debug hw s f temp Hr Ft) as (V1 & V2 & V3).
        rewrite Fst, Fsp, Flog in *. rewrite <- Q1 in U1, U2, U3.
        split; [ | split; [ | split ] ]; intros Hb; try lia.
        -- rewrite Sh, U1. reflexivity.
        -- split; [ reflexivity | ].
           rewrite Ld, U2, V2, P43, P44.
           subst s3. cbn [redLight blueLight with_log].
           rewrite <- V3 in U3. inversion U3. repeat split.
      * destruct P2 as (Q1 & Q2 & _ & _). rewrite Flog in Q1, Q2.
        split; [ | split; [ | split ] ]; intros Hb; try lia.
        -- rewrite Sh, Q1, Fst, Fsp. reflexivity.
        -- rewrite Ld, Q2. split; reflexivity.
  - intros Hu s n He. unfold manageMyDisplay.
    destruct (while_loop_run debug hw H Hu n {| counter := 1; altCounter := 1 |} s He)
      as (s' & E & _).
    rewrite locals_after in E. eexists. exists s'. split; [ exact E | reflexivity ].
Qed.

Lemma display_alternation_witness :
  exists l s',
    manageMyDisplay DEBUG (steady 20%float) 25 tsm = (Ok (Running l), s') /\
    altCounter l = 6.
Proof.
  exact (proj2 (display_alternation DEBUG (steady 20%float)
                  (steady_healthy 20%float 68 eq_refl))
           (steady_uninterrupted 20%float) tsm 25%nat eq_refl).
Defined.

(** ** Failures in the display loop *)

Lemma same_writes_refl s : same_writes s s.
Proof. reflexivity. Qed.

Lemma same_writes_trans a b c :
  same_writes a b -> same_writes b c -> same_writes a c.
Proof. unfold same_writes. congruence. Qed.

Ltac writes_walk := keeps_walk same_writes_refl same_writes_trans.

Lemma same_writes_getFahrenheit hw : keeps same_writes (getFahrenheit hw).
Proof.
  intros s. unfold exec, getFahrenheit, bind, thSensor_temperature.
  destruct (temperature hw (reads s)); reflexivity.
Qed.

Lemma same_writes_setup_line_2 debug hw a :
  keeps same_writes (setup_line_2 debug hw a).
Proof.
  pose proof (same_writes_getFahrenheit hw).
  assert (forall c, keeps same_writes (emit c)) by (intros c s; reflexivity).
  assert (forall x, keeps same_writes (print x)) by (intros x s; reflexivity).
  unfold setup_line_2, updateLights, redLight_off, blueLight_off, redLight_on,
    redLight_pulse, blueLight_on, blueLight_pulse.
  writes_walk; apply keeps_modify; intros ?; reflexivity.
Qed.

(** With a working sensor, an iteration gets as far as "Update server":
    [s3] is the state in which [update_server] starts. *)
Lemma tick_split debug hw l s :
  sensor_ok hw ->
  exists s3,
    tick debug hw l s =
      (c <- update_server debug hw (counter l) ;;
       ret {| counter := c; altCounter := next_altCounter (altCounter l) |}) s3 /\
    writes s3 = writes s /\ elapsed s3 = elapsed s.
Proof.
  intros H. unfold tick.
  set (s0 := exec (if debug then print "Processing Display Info..." else ret tt) s).
  assert (E0 : (if debug then print "Processing Display Info..." else ret tt) s
               = (Ok tt, s0)).
  { subst s0. destruct debug; reflexivity. }
  rewrite (bind_ok _ _ _ _ _ E0).
  unfold bind at 1. unfold datetime_now at 1.
  set (s1 := with_clock_calls (S (clock_calls s0)) s0).
  assert (F1 : writes s1 = writes s /\ elapsed s1 = elapsed s).
  { subst s1 s0. destruct debug; split; reflexivity. }
  destruct (H (reads s1)) as (f & temp & Hr & Ft).
  destruct (setup_line_2_run debug hw (altCounter l) s1 f temp Hr Ft)
    as (s2 & E2 & El2 & _).
  pose proof (same_writes_setup_line_2 debug hw (altCounter l) s1) as W2.
  unfold exec in W2. rewrite E2 in W2. cbn [snd] in W2. unfold same_writes in W2.
  rewrite (bind_ok _ _ _ _ _ E2).
  unfold updateScreen. unfold bind at 1. unfold bind at 1.
  cbn [emit modify fst snd].
  eexists. split; [ reflexivity | ].
  cbn. rewrite W2, El2. exact F1.
Qed.

(** C8 as stated fails.  One failed read of the sensor ends the display
    loop in its first iteration: [manageMyDisplay] raises [OSError],
    nothing has been shown and no [sleep(1)] has been reached, although
    every later read would succeed.  A failed write ends it in the 30th
    iteration with [SerialException]; the 60 iterations that were left
    do not run. *)
Lemma failure_leaves_the_loop :
  fst (manageMyDisplay DEBUG flaky_sensor 3 tsm) = Raise OSError /\
  elapsed (exec (manageMyDisplay DEBUG flaky_sensor 3) tsm) = 0%nat /\
  shown (log (exec (manageMyDisplay DEBUG flaky_sensor 3) tsm)) = [] /\
  fst (manageMyDisplay DEBUG dead_serial 90 tsm) = Raise SerialException /\
  elapsed (exec (manageMyDisplay DEBUG dead_serial 90) tsm) = 29%nat.
Proof. vm_compute. repeat split. Qed.

(** C8, amended.  [manageMyDisplay] catches nothing.  An exception
    raised in an iteration leaves the loop: [manageMyDisplay] raises it
    in the state of that moment, with no [sleep(1)], no further
    iteration and no [cleanupDisplay].  A failed read of the sensor is
    such an exception ([OSError]) in the iterations that show the
    temperature, and with a working sensor a failed write on the serial
    port is one ([SerialException]) in the iteration that reports.  An
    iteration that raises nothing is followed by the [sleep(1)] and the
    rest of the loop. *)
Theorem failures_propagate :
  forall debug hw l s,
    (forall fuel e s',
       endDisplay s = false ->
       tick debug hw l s = (Raise e, s') ->
       while_loop debug hw (S fuel) l s = (Raise e, s')) /\
    (altCounter l < 6 ->
     temperature hw (reads s) = None ->
     fst (tick debug hw l s) = Raise OSError) /\
    (sensor_ok hw ->
     counter l mod 30 = 0 ->
     write_ok hw (writes s) = false ->
     fst (tick debug hw l s) = Raise SerialException) /\
    (forall fuel l' s',
       endDisplay s = false ->
       tick debug hw l s = (Ok l', s') ->
       while_loop debug hw (S fuel) l s =
       while_loop debug hw fuel l' (exec (sleep debug hw) s')).
Proof.
  intros debug hw l s. split; [ | split; [ | split ] ].
  - intros fuel e s' He E. cbn [while_loop]. unfold bind at 1. cbn [gets].
    rewrite He. unfold loop_body.
    rewrite (bind_raise _ _ _ _ _ (bind_raise _ _ _ _ _ E)). reflexivity.
  - intros Ha Hn. unfold tick. unfold bind at 1.
    destruct debug; cbn [print ret modify]; unfold bind at 1, datetime_now at 1;
      unfold bind at 1, setup_line_2;
      (destruct (Z.ltb_spec (altCounter l) 6); [ | lia ]);
      unfold bind at 1, getFahrenheit, bind at 1, thSensor_temperature;
      cbn [reads with_clock_calls with_stdout]; rewrite Hn; reflexivity.
  - intros Hs Hc Hw.
    destruct (tick_split debug hw l s Hs) as (s3 & E & W & _). rewrite E.
    unfold update_server. unfold bind at 1. unfold bind at 1.
    assert (G : forall s4, writes s4 = writes s ->
              fst ((if counter l mod 30 =? 0
                    then output <- setupSerialOutput hw ;;
                         ser_write hw output ;; ret 1
                    else ret (counter l + 1)) s4)
              = Raise SerialException).
    { intros s4 W4. rewrite Hc. cbn [Z.eqb].
      destruct (setupSerialOutput_ok hw s4 Hs) as (f & Ef & _).
      rewrite (bind_ok _ _ _ _ _ Ef).
      assert (Ew : write_ok hw (writes (with_reads (S (reads s4)) s4)) = false).
      { cbn. rewrite W4. exact Hw. }
      rewrite (bind_raise _ _ _ _ _ (ser_write_fail hw _ _ Ew)). reflexivity. }
    destruct debug; [ cbn [print modify] | cbn [ret] ];
      match goal with
      | |- fst (match ?c ?s4 with _ => _ end) = _ =>
          pose proof (G s4 W) as G';
          destruct (c s4) as [[c0|e] s5]; cbn in G' |- *;
          [ discriminate | inversion G'; reflexivity ]
      end.
  - intros fuel l' s' He E. cbn [while_loop]. unfold bind at 1. cbn [gets].
    rewrite He. unfold loop_body.
    unfold bind at 1. unfold bind at 1. rewrite E.
    rewrite (bind_ok _ _ _ _ _ (sleep_run debug hw s')).
    unfold exec. rewrite sleep_run. reflexivity.
Qed.

Lemma failures_propagate_witness :
  exists s',
    while_loop DEBUG flaky_sensor 3 {| counter := 1; altCounter := 1 |} tsm
    = (Raise OSError, s').
Proof.
  eexists.
  exact (proj1 (failures_propagate DEBUG flaky_sensor
                  {| counter := 1; altCounter := 1 |} tsm)
           2%nat OSError _ eq_refl eq_refl).
Defined.

(** ** The status line *)

Lemma has_char_app c a b :
  has_char c (a ++ b) = has_char c a || has_char c b.
Proof.
  induction a as [|x a IH]; [ reflexivity | ].
  cbn. rewrite IH. apply orb_assoc.
Qed.

Lemma split_on_free c s : has_char c s = false -> split_on c s = [s].
Proof.
  induction s as [|x s IH]; [ reflexivity | ].
  cbn. intros H. apply orb_false_elim in H. destruct H as [Hx Hs].
  rewrite Hx, (IH Hs). reflexivity.
Qed.

Lemma split_on_field c a b :
  has_char c a = false ->
  split_on c (a ++ String c b) = a :: split_on c b.
Proof.
  induction a as [|x a IH]; intros H.
  - cbn. rewrite Ascii.eqb_refl. reflexivity.
  - cbn in H. apply orb_false_elim in H. destruct H as [Hx Ha].
    cbn. rewrite Hx, (IH Ha). reflexivity.
Qed.

Lemma no_comma_uint d : has_char comma (NilEmpty.string_of_uint d) = false.
Proof. induction d; cbn; try assumption; reflexivity. Qed.

Lemma no_comma_str z : has_char comma (str z) = false.
Proof.
  unfold str, NilZero.string_of_int, NilZero.string_of_uint.
  destruct (Z.to_int z) as [d|d]; destruct d; cbn;
    try reflexivity; apply no_comma_uint.
Qed.

Lemma no_comma_id st : has_char comma (id st) = false.
Proof. destruct st; reflexivity. Qed.

Lemma no_comma_format_1f f : has_char comma (PyFloat.format_1f f) = false.
Proof.
  unfold PyFloat.format_1f.
  destruct (Prim2SF f) as [sg|sg| |sg m e]; try (destruct sg; reflexivity);
    [ reflexivity | ].
  rewrite !has_char_app, !no_comma_str. destruct sg; reflexivity.
Qed.

Lemma round_half_even_nearest num den :
  0 < den -> 0 <= num ->
  let n := PyFloat.round_half_even num den in
  0 <= n /\
  Z.abs (2 * num - 2 * n * den) <= den /\
  (Z.abs (2 * num - 2 * n * den) = den -> Z.even n = true).
Proof.
  intros Hd Hn n. subst n. unfold PyFloat.round_half_even.
  pose proof (Z.div_mod num den ltac:(lia)) as D.
  pose proof (Z.mod_pos_bound num den Hd) as B.
  pose proof (Z.div_pos num den Hn Hd) as Q.
  set (q := num / den) in *. set (r := num mod den) in *.
  assert (E : 2 * num = 2 * q * den + 2 * r) by lia.
  destruct (Z.compare_spec (2 * r) den) as [C|C|C].
  - destruct (Z.even q) eqn:Ev.
    + split; [ lia | ]. split; [ lia | ]. intros _. exact Ev.
    + split; [ lia | ]. split; [ lia | ]. intros _.
      rewrite Z.even_add, Ev. reflexivity.
  - split; [ lia | ]. split; [ lia | ]. intros T. lia.
  - split; [ lia | ]. split; [ lia | ]. intros T. lia.
Qed.

(** C4 as stated fails on its example: 68.25 is a binary64 number, it
    lies exactly between 68.2 and 68.3, and the conversion rounds such a
    tie to the even digit.  The sensor value 20.13888888888889 makes
    [getFahrenheit] return 68.25, and the status line is then
    cool,68.2,70. *)
Lemma status_line_of_68_25 :
  let hw := steady 20.13888888888889%float in
  let s := with_current_state cool (with_setPoint 70 tsm) in
  fst (getFahrenheit hw s) = Ok 68.25%float /\
  fst (setupSerialOutput hw s) = Ok "cool,68.2,70" /\
  fst (setupSerialOutput hw s) <> Ok "cool,68.3,70".
Proof.
  cbv zeta. split; [ reflexivity | ].
  assert (E : fst (setupSerialOutput (steady 20.13888888888889%float)
                     (with_current_state cool (with_setPoint 70 tsm)))
              = Ok "cool,68.2,70") by (vm_compute; reflexivity).
  split; [ exact E | ]. rewrite E. discriminate.
Qed.

(** C4, amended.  [setupSerialOutput] returns the state id, the
    reading and the setpoint joined by two commas: split at the commas
    the line has exactly these three fields, the last one not empty.
    The setpoint is printed as an integer.  A finite reading
    [m * 2^e] is printed with its sign, an integer part and one
    digit after the point; the number [n] of tenths printed is a
    nearest integer to ten times the reading, and the even one when two
    are equally near.  For state cool, reading 68.25 and setpoint 70 the
    line is cool,68.2,70. *)
Theorem status_line_format :
  forall hw s f s1,
    getFahrenheit hw s = (Ok f, s1) ->
    let msg := status_line (current_state s) f (setPoint s) in
    setupSerialOutput hw s = (Ok msg, s1) /\
    split_on comma msg =
      [id (current_state s); PyFloat.format_1f f; str (setPoint s)] /\
    str (setPoint s) <> "" /\
    (forall sg m e,
       Prim2SF f = S754_finite sg m e ->
       exists n,
         0 <= n /\ 0 <= n mod 10 <= 9 /\
         PyFloat.format_1f f =
           PyFloat.sign_str sg ++ str (n / 10) ++ "." ++ str (n mod 10) /\
         let num := 10 * Z.pos m * 2 ^ Z.max e 0 in
         let den := 2 ^ Z.max (- e) 0 in
         Z.abs (2 * num - 2 * n * den) <= den /\
         (Z.abs (2 * num - 2 * n * den) = den -> Z.even n = true)) /\
    (current_state s = cool -> setPoint s = 70 -> f = 68.25%float ->
     msg = "cool,68.2,70").
Proof.
  intros hw s f s1 E msg. subst msg. unfold status_line.
  split; [ | split; [ | split; [ | split ] ] ].
  - unfold setupSerialOutput. unfold bind at 1. cbn [gets].
    rewrite (bind_ok _ _ _ _ _ E).
    apply getFahrenheit_inv in E. destruct E as [-> _]. reflexivity.
  - change ("," ++ PyFloat.format_1f f ++ "," ++ str (setPoint s))
      with (String comma (PyFloat.format_1f f ++ String comma (str (setPoint s)))).
    rewrite (split_on_field _ _ _ (no_comma_id _)).
    rewrite (split_on_field _ _ _ (no_comma_format_1f _)).
    rewrite (split_on_free _ _ (no_comma_str _)). reflexivity.
  - unfold str, NilZero.string_of_int, NilZero.string_of_uint.
    destruct (Z.to_int (setPoint s)) as [d|d]; destruct d; discriminate.
  - intros sg m e Hf. exists (PyFloat.tenths m e).
    unfold PyFloat.format_1f. rewrite Hf. unfold PyFloat.tenths.
    destruct (Z.leb_spec 0 e) as [He|He].
    + rewrite (Z.max_l e 0 He), (Z.max_r (- e) 0 ltac:(lia)).
      assert (0 <= 2 ^ e) by (apply Z.pow_nonneg; lia).
      split; [ lia | ].
      split; [ pose proof (Z.mod_pos_bound (10 * Z.pos m * 2 ^ e) 10 ltac:(lia)); lia | ].
      split; [ reflexivity | ].
      cbv zeta. change (2 ^ 0) with 1.
      replace (2 * (10 * Z.pos m * 2 ^ e) - 2 * (10 * Z.pos m * 2 ^ e) * 1)
        with 0 by lia.
      cbn. split; [ lia | discriminate ].
    + rewrite (Z.max_r e 0 ltac:(lia)), (Z.max_l (- e) 0 ltac:(lia)).
      assert (Hd : 0 < 2 ^ (- e)) by (apply Z.pow_pos_nonneg; lia).
      destruct (round_half_even_nearest (10 * Z.pos m) (2 ^ (- e)) Hd ltac:(lia))
        as (N0 & N1 & N2).
      split; [ exact N0 | ].
      split; [ pose proof (Z.mod_pos_bound
                 (PyFloat.round_half_even (10 * Z.pos m) (2 ^ (- e))) 10
                 ltac:(lia)); lia | ].
      split; [ reflexivity | ].
      cbv zeta. change (2 ^ 0) with 1. rewrite Z.mul_1_r.
      split; [ exact N1 | exact N2 ].
  - intros -> -> ->. vm_compute. reflexivity.
Qed.

Lemma status_line_format_witness :
  let hw := steady 20.13888888888889%float in
  let s := with_current_state cool (with_setPoint 70 tsm) in
  status_line (current_state s) 68.25%float (setPoint s) = "cool,68.2,70".
Proof.
  intros hw s.
  exact (proj2 (proj2 (proj2 (proj2
           (status_line_format hw s 68.25%float (with_reads 1 s) eq_refl))))
           eq_refl eq_refl eq_refl).
Defined.

(** ** The two threads *)


Lemma setpoint_buttons_run debug hw s :
  processTempIncButton debug hw s =
    updateLights debug hw
      (with_setPoint (setPoint s + 1)
         (exec (if debug then print "Increasing Set Point" else ret tt) s)) /\
  processTempDecButton debug hw s =
    updateLights debug hw
      (with_setPoint (setPoint s - 1)
         (exec (if debug then print "Decreasing Set Point" else ret tt) s)).
Proof.
  unfold processTempIncButton, processTempDecButton.
  destruct debug; split; reflexivity.
Qed.

Lemma setPoint_after_green debug hw s :
  setPoint (exec (callback debug hw greenButton) s) = setPoint s.
Proof.
  cbn [callback]. unfold processTempStateButton.
  assert (G : forall s0, setPoint (exec (send_cycle debug hw) s0) = setPoint s0).
  { intros s0. unfold exec. rewrite send_cycle_run.
    destruct (same_tsm_on_enter debug hw (next_in_order (current_state s0))
                (with_current_state (next_in_order (current_state s0))
                   (exec (on_exit (current_state s0)) s0))) as [_ H].
    unfold exec at 1 in H. rewrite H. cbn [setPoint with_current_state].
    destruct (current_state s0); reflexivity. }
  destruct debug.
  - exact (G (exec (print "Cycling Temperature State") s)).
  - exact (G s).
Qed.

Lemma current_state_after_setpoint_button debug hw b s :
  b <> greenButton ->
  current_state (exec (callback debug hw b) s) = current_state s.
Proof.
  intros Hb. destruct b; [ contradiction | | ]; cbn [callback].
  - unfold exec. rewrite (proj1 (setpoint_buttons_run debug hw s)).
    destruct (same_tsm_updateLights debug hw
                (with_setPoint (setPoint s + 1)
                   (exec (if debug then print "Increasing Set Point" else ret tt) s)))
      as [H _].
    unfold exec at 1 in H. rewrite H. destruct debug; reflexivity.
  - unfold exec. rewrite (proj2 (setpoint_buttons_run debug hw s)).
    destruct (same_tsm_updateLights debug hw
                (with_setPoint (setPoint s - 1)
                   (exec (if debug then print "Decreasing Set Point" else ret tt) s)))
      as [H _].
    unfold exec at 1 in H. rewrite H. destruct debug; reflexivity.
Qed.

Lemma run_events_cons debug hw b bs s :
  exec (run_events debug hw (map Pressed (b :: bs))) s =
  exec (run_events debug hw (map Pressed bs)) (exec (callback debug hw b) s).
Proof. reflexivity. Qed.






(** * Further properties *)

(** ** The buttons *)

Lemma updateLights_sensor_failure debug hw s :
  temperature hw (reads s) = None ->
  updateLights debug hw s = (Raise OSError, with_reads (S (reads s)) s).
Proof.
  intros H. unfold updateLights, getFahrenheit, thSensor_temperature.
  unfold bind at 1. unfold bind at 1. rewrite H. reflexivity.
Qed.

Lemma current_state_after_green debug hw s :
  current_state (exec (callback debug hw greenButton) s)
  = next_in_order (current_state s).
Proof.
  cbn [callback]. unfold processTempStateButton. destruct debug.
  - exact (send_cycle_state true hw (exec (print "Cycling Temperature State") s)).
  - exact (send_cycle_state false hw s).
Qed.

Lemma setPoint_after_setpoint_button debug hw s :
  setPoint (exec (callback debug hw redButton) s) = setPoint s + 1 /\
  setPoint (exec (callback debug hw blueButton) s) = setPoint s - 1.
Proof.
  cbn [callback]. unfold exec.
  rewrite (proj1 (setpoint_buttons_run debug hw s)).
  rewrite (proj2 (setpoint_buttons_run debug hw s)).
  destruct (same_tsm_updateLights debug hw
              (with_setPoint (setPoint s + 1)
                 (exec (if debug then print "Increasing Set Point" else ret tt) s)))
    as [_ H1].
  destruct (same_tsm_updateLights debug hw
              (with_setPoint (setPoint s - 1)
                 (exec (if debug then print "Decreasing Set Point" else ret tt) s)))
    as [_ H2].
  unfold exec at 1 in H1. unfold exec at 1 in H2. rewrite H1, H2.
  destruct debug; split; reflexivity.
Qed.

Lemma presses_tally debug hw bs :
  forall s,
    let s' := exec (run_events debug hw (map Pressed bs)) s in
    current_state s' =
      Nat.iter (presses greenButton bs) next_in_order (current_state s) /\
    setPoint s' =
      setPoint s + Z.of_nat (presses redButton bs)
                 - Z.of_nat (presses blueButton bs).
Proof.
  induction bs as [|b bs IH]; intros s s'.
  - subst s'. cbn. split; [ reflexivity | lia ].
  - subst s'. rewrite run_events_cons.
    destruct (IH (exec (callback debug hw b) s)) as [I1 I2].
    rewrite I1, I2. unfold presses. destruct b; cbn [filter Button_eqb List.length].
    + rewrite current_state_after_green, setPoint_after_green.
      split; [ | reflexivity ].
      rewrite Nat.iter_succ_r. reflexivity.
    + rewrite (current_state_after_setpoint_button debug hw redButton s)
        by discriminate.
      rewrite (proj1 (setPoint_after_setpoint_button debug hw s)).
      split; [ reflexivity | lia ].
    + rewrite (current_state_after_setpoint_button debug hw blueButton s)
        by discriminate.
      rewrite (proj2 (setPoint_after_setpoint_button debug hw s)).
      split; [ reflexivity | lia ].
Qed.

(** X1.  A sequence of button presses in any order moves the setpoint
    by the number of presses of the red button minus the number of
    presses of the blue one, whatever the sensor does: a failed read
    ends the callback after the setpoint has changed.  With a sensor
    that answers, the state is advanced once per press of the green
    button, in the order off, heat, cool, wherever these presses stand
    among the others. *)
Theorem presses_add_up :
  forall debug hw bs s,
    let s' := exec (run_events debug hw (map Pressed bs)) s in
    setPoint s' =
      setPoint s + Z.of_nat (presses redButton bs)
                 - Z.of_nat (presses blueButton bs) /\
    (sensor_ok hw ->
     current_state s' =
       Nat.iter (presses greenButton bs) next_in_order (current_state s)).
Proof.
  intros debug hw bs s s'.
  destruct (presses_tally debug hw bs s) as [St Sp].
  split; [ exact Sp | intros _; exact St ].
Qed.

Lemma presses_add_up_witness :
  let bs := [greenButton; redButton; greenButton; blueButton; redButton] in
  current_state (exec (run_events DEBUG (steady 20%float) (map Pressed bs)) tsm)
  = cool.
Proof.
  intros bs.
  exact (proj2 (presses_add_up DEBUG (steady 20%float) bs tsm)
           (fun n => ex_intro _ 68%float
                       (ex_intro _ 68 (conj eq_refl eq_refl)))).
Defined.

(** X2.  A press while the read of the sensor fails.  The red and the
    blue button raise [OSError] after the setpoint has been changed, and
    nothing reaches the LEDs.  The green button in state off raises
    with nothing sent to the LEDs, which stay as they were; in state
    heat it sends red off (the exit hook) and then raises, so the red
    LED is off and nothing else has been sent.  Neither changes the
    setpoint.  In state cool the green button does not read the sensor:
    it returns, in state off with both LEDs off. *)
Theorem press_with_failed_sensor :
  forall debug hw s,
    temperature hw (reads s) = None ->
    (forall b,
       b <> greenButton ->
       let s' := exec (callback debug hw b) s in
       fst (callback debug hw b s) = Raise OSError /\
       setPoint s' <> setPoint s /\
       log s' = log s /\
       redLight s' = redLight s /\ blueLight s' = blueLight s) /\
    (let s' := exec (callback debug hw greenButton) s in
     (current_state s = off ->
        fst (callback debug hw greenButton s) = Raise OSError /\
        setPoint s' = setPoint s /\ log s' = log s /\
        redLight s' = redLight s /\ blueLight s' = blueLight s) /\
     (current_state s = heat ->
        fst (callback debug hw greenButton s) = Raise OSError /\
        setPoint s' = setPoint s /\
        log s' = (log s ++ [(elapsed s, RedOff)])%list /\
        redLight s' = Off /\ blueLight s' = blueLight s) /\
     (current_state s = cool ->
        fst (callback debug hw greenButton s) = Ok tt /\
        current_state s' = off /\
        redLight s' = Off /\ blueLight s' = Off)).
Proof.
  intros debug hw s H. split.
  - intros b Hb s'. subst s'. unfold exec.
    destruct b; [ contradiction | | ]; cbn [callback].
    + rewrite (proj1 (setpoint_buttons_run debug hw s)).
      rewrite updateLights_sensor_failure by (destruct debug; exact H).
      destruct debug; cbn; repeat split; lia.
    + rewrite (proj2 (setpoint_buttons_run debug hw s)).
      rewrite updateLights_sensor_failure by (destruct debug; exact H).
      destruct debug; cbn; repeat split; lia.
  - cbv zeta. unfold exec. cbn [callback]. unfold processTempStateButton.
    assert (G : forall s0,
              reads s0 = reads s -> log s0 = log s -> elapsed s0 = elapsed s ->
              redLight s0 = redLight s -> blueLight s0 = blueLight s ->
              current_state s0 = current_state s ->
              setPoint s0 = setPoint s ->
              (current_state s = off ->
                 fst (send_cycle debug hw s0) = Raise OSError /\
                 setPoint (snd (send_cycle debug hw s0)) = setPoint s /\
                 log (snd (send_cycle debug hw s0)) = log s /\
                 redLight (snd (send_cycle debug hw s0)) = redLight s /\
                 blueLight (snd (send_cycle debug hw s0)) = blueLight s) /\
              (current_state s = heat ->
                 fst (send_cycle debug hw s0) = Raise OSError /\
                 setPoint (snd (send_cycle debug hw s0)) = setPoint s /\
                 log (snd (send_cycle debug hw s0))
                   = (log s ++ [(elapsed s, RedOff)])%list /\
                 redLight (snd (send_cycle debug hw s0)) = Off /\
                 blueLight (snd (send_cycle debug hw s0)) = blueLight s) /\
              (current_state s = cool ->
                 fst (send_cycle debug hw s0) = Ok tt /\
                 current_state (snd (send_cycle debug hw s0)) = off /\
                 redLight (snd (send_cycle debug hw s0)) = Off /\
                 blueLight (snd (send_cycle debug hw s0)) = Off)).
    { intros s0 Er El Ee Erl Ebl Es Esp. rewrite send_cycle_run, Es.
      assert (F : forall st (k : unit -> M unit),
                reads st = reads s ->
                bind (updateLights debug hw) k st
                = (Raise OSError, with_reads (S (reads st)) st)).
      { intros st k E. apply bind_raise. apply updateLights_sensor_failure.
        rewrite E. exact H. }
      split; [ | split ]; intros St; rewrite St;
        cbn [next_in_order on_exit on_enter].
      - unfold on_enter_heat. rewrite F by (cbn; exact Er).
        cbn. repeat split; assumption.
      - unfold on_enter_cool. rewrite F by (cbn; exact Er).
        cbn. rewrite El, Ee, Ebl, Esp. repeat split.
      - unfold on_enter_off. destruct debug; cbn; repeat split. }
    destruct debug.
    + exact (G (exec (print "Cycling Temperature State") s)
               eq_refl eq_refl eq_refl eq_refl eq_refl eq_refl eq_refl).
    + exact (G s eq_refl eq_refl eq_refl eq_refl eq_refl eq_refl eq_refl).
Qed.

Lemma press_with_failed_sensor_witness :
  fst (callback DEBUG flaky_sensor redButton tsm) = Raise OSError /\
  setPoint (exec (callback DEBUG flaky_sensor redButton) tsm) <> setPoint tsm.
Proof.
  pose proof (proj1 (press_with_failed_sensor DEBUG flaky_sensor tsm eq_refl)
                redButton ltac:(discriminate)) as H.
  split; [ exact (proj1 H) | exact (proj1 (proj2 H)) ].
Defined.

(** ** [updateLights] as a function of state, setpoint and reading *)

Lemma reading_getFahrenheit hw s f :
  reading hw (reads s) = Some f ->
  getFahrenheit hw s = (Ok f, with_reads (S (reads s)) s).
Proof.
  intros Hr. unfold reading in Hr.
  unfold getFahrenheit, bind, thSensor_temperature.
  destruct (temperature hw (reads s)) as [t|]; [ | discriminate ].
  cbn in Hr. inversion Hr. reflexivity.
Qed.

Lemma updateLights_leds (debug : bool) hw s f temp :
  reading hw (reads s) = Some f ->
  PyFloat.floor f = inr temp ->
  let s' := exec (updateLights debug hw) s in
  fst (updateLights debug hw s) = Ok tt /\
  (redLight s', blueLight s') = led_rule debug (current_state s) (setPoint s) temp /\
  current_state s' = current_state s /\ setPoint s' = setPoint s /\
  reads s' = S (reads s) /\
  log s' =
    (log s ++ stamped s (RedOff :: BlueOff ::
                         (if debug then match_cmd (current_state s) (setPoint s) temp
                          else [])))%list.
Proof.
  intros Hr Ft s'. subst s'. unfold exec, led_rule.
  pose proof (updateLights_run debug hw s f _ temp
                (reading_getFahrenheit hw s f Hr) Ft) as R.
  cbv zeta in R. rewrite R. cbn.
  destruct (leds_after _ _). repeat split.
Qed.

(** X3.  The LEDs that [updateLights] leaves do not depend on what they
    were: they are a function of the state, the setpoint and the floor
    of the reading, and in state off both are off.  Run twice in a row
    with readings of the same floor, it sends the same commands the
    second time and leaves the LEDs as the first run did. *)
Theorem updateLights_idempotent :
  forall debug hw s f1 f2 temp,
    reading hw (reads s) = Some f1 ->
    reading hw (S (reads s)) = Some f2 ->
    PyFloat.floor f1 = inr temp ->
    PyFloat.floor f2 = inr temp ->
    let s1 := exec (updateLights debug hw) s in
    let s2 := exec (updateLights debug hw) s1 in
    (redLight s1, blueLight s1) = led_rule debug (current_state s) (setPoint s) temp /\
    (current_state s = off -> redLight s1 = Off /\ blueLight s1 = Off) /\
    redLight s2 = redLight s1 /\ blueLight s2 = blueLight s1 /\
    led_cmds (log s2) =
      (led_cmds (log s) ++
       (RedOff :: BlueOff ::
        (if debug then match_cmd (current_state s) (setPoint s) temp else [])) ++
       (RedOff :: BlueOff ::
        (if debug then match_cmd (current_state s) (setPoint s) temp else [])))%list.
Proof.
  intros debug hw s f1 f2 temp H1 H2 F1 F2 s1 s2.
  destruct (updateLights_leds debug hw s f1 temp H1 F1)
    as (_ & L1 & St1 & Sp1 & Rd1 & Lg1).
  fold s1 in L1, St1, Sp1, Rd1, Lg1.
  assert (H2' : reading hw (reads s1) = Some f2) by (rewrite Rd1; exact H2).
  destruct (updateLights_leds debug hw s1 f2 temp H2' F2)
    as (_ & L2 & _ & _ & _ & Lg2).
  fold s2 in L2, Lg2. rewrite St1, Sp1 in L2, Lg2.
  split; [ exact L1 | ]. split.
  - intros St. rewrite St in L1. unfold led_rule, match_cmd in L1.
    destruct debug; inversion L1; split; reflexivity.
  - rewrite <- L1 in L2. inversion L2. split; [ reflexivity | ].
    split; [ reflexivity | ].
    rewrite Lg2, Lg1, !led_cmds_app.
    rewrite (led_cmds_stamped_leds s _ (match_cmd_leds debug _ _ _)).
    rewrite (led_cmds_stamped_leds s1 _ (match_cmd_leds debug _ _ _)).
    rewrite <- app_assoc. reflexivity.
Qed.

Lemma updateLights_idempotent_witness :
  let s := with_current_state heat tsm in
  let s1 := exec (updateLights DEBUG (steady 20%float)) s in
  let s2 := exec (updateLights DEBUG (steady 20%float)) s1 in
  redLight s2 = redLight s1 /\ blueLight s2 = blueLight s1.
Proof.
  intros s s1 s2.
  pose proof (updateLights_idempotent DEBUG (steady 20%float) s
                68%float 68%float 68 eq_refl eq_refl eq_refl eq_refl) as H.
  split; [ exact (proj1 (proj2 (proj2 H)))
         | exact (proj1 (proj2 (proj2 (proj2 H)))) ].
Defined.

(** X4.  When the sensor answers, every button callback returns and
    leaves the LEDs as the rule of [updateLights] gives them for the
    state and the setpoint after the press and the reading taken during
    the press: no LED of the state that was left stays lit. *)
Theorem leds_follow_the_press :
  forall debug hw b s f temp,
    reading hw (reads s) = Some f ->
    PyFloat.floor f = inr temp ->
    let s' := exec (callback debug hw b) s in
    fst (callback debug hw b s) = Ok tt /\
    (redLight s', blueLight s') =
      led_rule debug (current_state s') (setPoint s') temp.
Proof.
  intros debug hw b s f temp Hr Ft s'. subst s'. unfold exec.
  assert (U : forall st,
            reads st = reads s ->
            fst (updateLights debug hw st) = Ok tt /\
            (redLight (snd (updateLights debug hw st)),
             blueLight (snd (updateLights debug hw st)))
            = led_rule debug (current_state st) (setPoint st) temp /\
            current_state (snd (updateLights debug hw st)) = current_state st /\
            setPoint (snd (updateLights debug hw st)) = setPoint st).
  { intros st E.
    destruct (updateLights_leds debug hw st f temp) as (A & B & C & D & _);
      [ rewrite E; exact Hr | exact Ft | ].
    unfold exec in B, C, D. repeat split; assumption. }
  assert (K : forall st (line : string),
            reads st = reads s ->
            let r := (updateLights debug hw ;;
                      if debug then print line else ret tt)%py st in
            fst r = Ok tt /\
            (redLight (snd r), blueLight (snd r))
            = led_rule debug (current_state st) (setPoint st) temp /\
            current_state (snd r) = current_state st /\
            setPoint (snd r) = setPoint st).
  { intros st line E r. subst r. destruct (U st E) as (A & B & C & D).
    unfold bind. destruct (updateLights debug hw st) as [[[]|e] s1];
      cbn in A, B, C, D; [ | discriminate ].
    destruct debug; cbn; repeat split; assumption. }
  destruct b; cbn [callback].
  - unfold processTempStateButton.
    assert (G : forall s0,
              reads s0 = reads s ->
              fst (send_cycle debug hw s0) = Ok tt /\
              (redLight (snd (send_cycle debug hw s0)),
               blueLight (snd (send_cycle debug hw s0)))
              = led_rule debug (current_state (snd (send_cycle debug hw s0)))
                  (setPoint (snd (send_cycle debug hw s0))) temp).
    { intros s0 E. rewrite send_cycle_run.
      destruct (current_state s0); cbn [next_in_order on_exit on_enter].
      - unfold on_enter_heat.
        destruct (K (with_current_state heat (exec (ret tt) s0))
                    "* Changing state to heat" E) as (A & B & C & D).
        cbv zeta in A, B, C, D. rewrite C, D. split; assumption.
      - unfold on_enter_cool.
        destruct (K (with_current_state cool (exec on_exit_heat s0))
                    "* Changing state to cool" E) as (A & B & C & D).
        cbv zeta in A, B, C, D. rewrite C, D. split; assumption.
      - unfold on_enter_off, led_rule, match_cmd.
        destruct debug; cbn; split; reflexivity. }
    destruct debug.
    + exact (G (exec (print "Cycling Temperature State") s) eq_refl).
    + exact (G s eq_refl).
  - rewrite (proj1 (setpoint_buttons_run debug hw s)).
    destruct (U (with_setPoint (setPoint s + 1)
                   (exec (if debug then print "Increasing Set Point" else ret tt) s)))
      as (A & B & C & D); [ destruct debug; reflexivity | ].
    rewrite C, D. split; assumption.
  - rewrite (proj2 (setpoint_buttons_run debug hw s)).
    destruct (U (with_setPoint (setPoint s - 1)
                   (exec (if debug then print "Decreasing Set Point" else ret tt) s)))
      as (A & B & C & D); [ destruct debug; reflexivity | ].
    rewrite C, D. split; assumption.
Qed.

Lemma leds_follow_the_press_witness :
  let s' := exec (callback DEBUG (steady 20%float) greenButton) tsm in
  (redLight s', blueLight s') = (Pulsing, Off).
Proof.
  intros s'.
  exact (proj2 (leds_follow_the_press DEBUG (steady 20%float) greenButton tsm
                  68%float 68 eq_refl eq_refl)).
Defined.

(** ** Stopping the display thread *)

Lemma stays_stopped_refl s : stays_stopped s s.
Proof. repeat split. intros H; exact H. Qed.

Lemma stays_stopped_trans a b c :
  stays_stopped a b -> stays_stopped b c -> stays_stopped a c.
Proof.
  intros (A1 & A2 & A3) (B1 & B2 & B3). repeat split; try congruence. auto.
Qed.

Lemma stays_stopped_dispatch debug hw e : keeps stays_stopped (dispatch debug hw e).
Proof.
  intros s. destruct e as [b|]; cbn [dispatch].
  - destruct (same_sched_callback debug hw b s) as (A & B & C).
    rewrite app_nil_r in C. repeat split; try assumption.
    intros H. rewrite B. exact H.
  - repeat split.
Qed.

Lemma stays_stopped_run_events debug hw es :
  keeps stays_stopped (run_events debug hw es).
Proof.
  induction es as [|e es IH]; cbn [run_events].
  - intros s. apply stays_stopped_refl.
  - pose proof (stays_stopped_dispatch debug hw e).
    keeps_walk stays_stopped_refl stays_stopped_trans.
Qed.

Lemma run_events_interrupt debug hw es :
  forall s,
    In KeyboardInterrupt es ->
    endDisplay (exec (run_events debug hw es) s) = true.
Proof.
  induction es as [|e es IH]; intros s Hin; [ destruct Hin | ].
  cbn [run_events]. unfold exec, bind at 1, in_other_thread.
  fold (exec (run_events debug hw es) (exec (dispatch debug hw e) s)).
  destruct Hin as [->|Hin].
  - apply (stays_stopped_run_events debug hw es). reflexivity.
  - apply IH. exact Hin.
Qed.

Lemma loop_body_interrupted debug hw l s :
  healthy hw ->
  In KeyboardInterrupt (events hw (elapsed s)) ->
  exists s',
    loop_body debug hw l s = (Ok (next_locals l), s') /\
    elapsed s' = S (elapsed s) /\
    endDisplay s' = true /\
    transmissions (log s') =
      (transmissions (log s) ++
       (if counter l mod 30 =? 0 then [S (elapsed s)] else []))%list.
Proof.
  intros H Hin. unfold loop_body.
  destruct (tick_sched debug hw l s H) as (s1 & E1 & (R1 & R2 & R3) & _ & _).
  rewrite (bind_ok _ _ _ _ _ E1).
  rewrite (bind_ok _ _ _ _ _ (sleep_run debug hw s1)).
  eexists. split; [ reflexivity | ].
  rewrite R1 in *.
  destruct (stays_stopped_run_events debug hw (events hw (elapsed s)) s1)
    as (Q1 & Q2 & _).
  cbn. rewrite Q1, Q2, R1, R3.
  rewrite (run_events_interrupt debug hw _ s1 Hin). repeat split.
Qed.

Lemma while_loop_run_until debug hw :
  healthy hw ->
  forall n l s,
    endDisplay s = false ->
    (forall i, (elapsed s <= i < elapsed s + n)%nat ->
               ~ In KeyboardInterrupt (events hw i)) ->
    exists s',
      while_loop debug hw n l s = (Ok (Running (Nat.iter n next_locals l)), s') /\
      elapsed s' = (elapsed s + n)%nat /\
      endDisplay s' = false /\
      transmissions (log s') =
        (transmissions (log s) ++ report_ticks n (counter l) (elapsed s))%list.
Proof.
  intros H. induction n as [|n IH]; intros l s He Hu.
  - exists s. cbn. rewrite Nat.add_0_r, app_nil_r. repeat split. exact He.
  - cbn [while_loop]. unfold bind at 1. cbn [gets]. rewrite He.
    destruct (loop_body_sched debug hw l s H (Hu (elapsed s) ltac:(lia)))
      as (s1 & E1 & A1 & A2 & A3).
    rewrite (bind_ok _ _ _ _ _ E1).
    destruct (IH (next_locals l) s1) as (s2 & E2 & B1 & B2 & B3).
    { rewrite A2. exact He. }
    { intros i Hi. apply Hu. lia. }
    exists s2. rewrite E2. rewrite <- Nat.iter_succ_r.
    split; [ reflexivity | ].
    split; [ rewrite B1, A1; lia | ].
    split; [ exact B2 | ].
    rewrite B3, A3, A1. cbn [report_ticks next_locals counter].
    rewrite <- app_assoc. reflexivity.
Qed.

Lemma while_loop_add debug hw n m :
  forall l s l' s',
    while_loop debug hw n l s = (Ok (Running l'), s') ->
    while_loop debug hw (n + m) l s = while_loop debug hw m l' s'.
Proof.
  induction n as [|n IH]; intros l s l' s' E.
  - cbn in E. inversion E. reflexivity.
  - cbn [while_loop Nat.add] in E |- *. unfold bind at 1 in E. unfold bind at 1.
    cbn [gets] in E |- *. destruct (endDisplay s).
    + cbn in E. discriminate.
    + unfold bind at 1 in E. unfold bind at 1.
      destruct (loop_body debug hw l s) as [[l1|e] s1]; [ | discriminate ].
      apply IH. exact E.
Qed.

Lemma report_ticks_app n m c t :
  report_ticks (n + m) c t =
  (report_ticks n c t ++
   report_ticks m (Nat.iter n next_counter c) (t + n))%list.
Proof.
  revert c t. induction n as [|n IH]; intros c t.
  - cbn. rewrite Nat.add_0_r. reflexivity.
  - cbn [Nat.add report_ticks]. rewrite IH, <- app_assoc.
    rewrite Nat.iter_succ_r. replace (S t + n)%nat with (t + S n)%nat by lia.
    reflexivity.
Qed.

(** X5.  CTRL-C stops the display thread at the top of its next
    iteration.  When nothing fails and the interrupt arrives during the
    sleep of iteration [k + 1], the loop runs [k + 1] iterations and
    no more, however long it is allowed to run; [manageMyDisplay]
    returns after clearing the display and releasing its lines, which
    are its last two commands, and the only status lines written are
    those of the iterations that are multiples of 30: no last report is
    sent. *)
Theorem interrupt_stops_the_loop :
  forall debug hw s k fuel,
    healthy hw ->
    endDisplay s = false ->
    elapsed s = 0%nat ->
    (forall i, (i < k)%nat -> ~ In KeyboardInterrupt (events hw i)) ->
    In KeyboardInterrupt (events hw k) ->
    (k + 2 <= fuel)%nat ->
    exists s',
      manageMyDisplay debug hw fuel s = (Ok Returned, s') /\
      elapsed s' = S k /\
      endDisplay s' = true /\
      transmissions (log s') =
        (transmissions (log s) ++
         filter (fun i => (i mod 30 =? 0)%nat) (seq 1 (S k)))%list /\
      exists lg, log s' = (lg ++ [(S k, LcdClear); (S k, LcdDeinit)])%list.
Proof.
  intros debug hw s k fuel H He Ht Hno Hin Hf. unfold manageMyDisplay.
  set (l0 := {| counter := 1; altCounter := 1 |}).
  destruct (while_loop_run_until debug hw H k l0 s He) as (s1 & E1 & A1 & A2 & A3).
  { intros i Hi. apply Hno. lia. }
  replace fuel with (k + S (S (fuel - k - 2)))%nat by lia.
  rewrite (while_loop_add debug hw k _ _ _ _ _ E1).
  rewrite Ht in A1, A3. cbn [Nat.add] in A1.
  cbn [while_loop]. unfold bind at 1. cbn [gets]. rewrite A2.
  destruct (loop_body_interrupted debug hw (Nat.iter k next_locals l0) s1 H)
    as (s2 & E2 & B1 & B2 & B3).
  { rewrite A1. exact Hin. }
  rewrite (bind_ok _ _ _ _ _ E2).
  unfold bind at 1. cbn [gets]. rewrite B2.
  eexists. split; [ reflexivity | ].
  remember (filter (fun i => (i mod 30 =? 0)%nat) (seq 1 (S k))) as want eqn:Ew.
  cbn. rewrite B1, A1, B2. split; [ reflexivity | ]. split; [ reflexivity | ].
  split.
  - rewrite !transmissions_snoc. cbn. rewrite !app_nil_r, B3, A3, A1.
    rewrite <- app_assoc. f_equal.
    subst l0 want. rewrite locals_after. cbn [counter].
    rewrite <- (report_ticks_closed (S k) 0).
    replace (S k) with (k + 1)%nat by lia.
    rewrite report_ticks_app. cbn [report_ticks Nat.add].
    rewrite app_nil_r. f_equal.
    assert (G : forall n, Nat.iter n next_counter 1 = Z.of_nat (n mod 30) + 1).
    { induction n as [|n IHn]; [ reflexivity | ].
      cbn [Nat.iter nat_rect]. unfold Nat.iter in IHn. rewrite IHn.
      apply (proj1 (next_counter_mod n)). }
    change (Z.of_nat (0 mod 30) + 1) with 1. rewrite G, ?Nat.add_1_r. reflexivity.
  - eexists. rewrite <- app_assoc. reflexivity.
Qed.

Lemma ctrl_c_at_healthy k : healthy (ctrl_c_at k).
Proof.
  split; intros n; [ | reflexivity ].
  exists 68%float, 68. split; reflexivity.
Qed.

Lemma ctrl_c_at_before k i :
  (i < k)%nat -> ~ In KeyboardInterrupt (events (ctrl_c_at k) i).
Proof.
  intros Hi. cbn [events ctrl_c_at].
  destruct (Nat.eqb_spec i k); [ lia | ]. intros [].
Qed.

Lemma ctrl_c_at_then k : In KeyboardInterrupt (events (ctrl_c_at k) k).
Proof. cbn [events ctrl_c_at]. rewrite Nat.eqb_refl. left. reflexivity. Qed.

Lemma interrupt_stops_the_loop_witness :
  exists s',
    manageMyDisplay DEBUG (ctrl_c_at 2) 5 tsm = (Ok Returned, s') /\
    elapsed s' = 3%nat /\
    endDisplay s' = true /\
    transmissions (log s') = [] /\
    exists lg, log s' = (lg ++ [(3%nat, LcdClear); (3%nat, LcdDeinit)])%list.
Proof.
  exact (interrupt_stops_the_loop DEBUG (ctrl_c_at 2) tsm 2 5
           (ctrl_c_at_healthy 2) eq_refl eq_refl
           (ctrl_c_at_before 2) (ctrl_c_at_then 2) ltac:(lia)).
Defined.

(** ** Who changes what *)

Lemma only_leds_same s s' :
  elapsed s' = elapsed s -> endDisplay s' = endDisplay s ->
  writes s' = writes s -> clock_calls s' = clock_calls s ->
  log s' = log s ->
  only_leds s s'.
Proof.
  intros H1 H2 H3 H4 H5. repeat split; try assumption.
  exists []. unfold stamped. cbn. rewrite app_nil_r. split; [ exact H5 | reflexivity ].
Qed.

Lemma only_leds_refl s : only_leds s s.
Proof. apply only_leds_same; reflexivity. Qed.

Lemma only_leds_trans a b c : only_leds a b -> only_leds b c -> only_leds a c.
Proof.
  intros (A1 & A2 & A3 & A4 & cs & A5 & A6) (B1 & B2 & B3 & B4 & cs' & B5 & B6).
  repeat split; try congruence.
  exists (cs ++ cs')%list. split.
  - rewrite B5, A5. unfold stamped. rewrite A1, map_app, app_assoc. reflexivity.
  - rewrite forallb_app, A6, B6. reflexivity.
Qed.

Lemma only_leds_emit c : is_led c = true -> keeps only_leds (emit c).
Proof.
  intros H s. repeat split. exists [c]. cbn. rewrite H. split; reflexivity.
Qed.

Lemma only_leds_updateLights debug hw : keeps only_leds (updateLights debug hw).
Proof.
  pose proof (only_leds_emit RedOff eq_refl).
  pose proof (only_leds_emit RedOn eq_refl).
  pose proof (only_leds_emit RedPulse eq_refl).
  pose proof (only_leds_emit BlueOff eq_refl).
  pose proof (only_leds_emit BlueOn eq_refl).
  pose proof (only_leds_emit BluePulse eq_refl).
  assert (forall x, keeps only_leds (print x)).
  { intros x s. apply only_leds_same; reflexivity. }
  assert (keeps only_leds (thSensor_temperature hw)).
  { intros s. unfold exec, thSensor_temperature.
    destruct (temperature hw (reads s)); apply only_leds_same; reflexivity. }
  unfold updateLights, getFahrenheit, redLight_off, blueLight_off, redLight_on,
    redLight_pulse, blueLight_on, blueLight_pulse.
  keeps_walk only_leds_refl only_leds_trans;
    apply (keeps_modify _); intros ?; apply only_leds_same; reflexivity.
Qed.

Lemma only_leds_callback debug hw b : keeps only_leds (callback debug hw b).
Proof.
  pose proof (only_leds_updateLights debug hw).
  pose proof (only_leds_emit RedOff eq_refl).
  pose proof (only_leds_emit BlueOff eq_refl).
  assert (forall x, keeps only_leds (print x)).
  { intros x s. apply only_leds_same; reflexivity. }
  destruct b; cbn [callback];
    unfold processTempStateButton, processTempIncButton, processTempDecButton,
      send_cycle, on_exit, on_enter, on_enter_heat, on_enter_cool, on_enter_off,
      on_exit_heat, on_exit_cool, redLight_off, blueLight_off;
    keeps_walk only_leds_refl only_leds_trans;
    apply (keeps_modify _); intros ?; apply only_leds_same; reflexivity.
Qed.

Lemma only_leds_shown s s' :
  only_leds s s' ->
  shown (log s') = shown (log s) /\
  transmissions (log s') = transmissions (log s).
Proof.
  intros (_ & _ & _ & _ & cs & E & F). rewrite E.
  clear E. revert F. generalize (log s). unfold stamped.
  induction cs as [|c cs IH]; intros lg F.
  - cbn. rewrite app_nil_r. split; reflexivity.
  - cbn [forallb] in F. apply andb_prop in F. destruct F as [Fc F].
    cbn [map].
    replace (lg ++ (elapsed s, c) :: map (fun c0 => (elapsed s, c0)) cs)%list
      with ((lg ++ [(elapsed s, c)]) ++ map (fun c0 => (elapsed s, c0)) cs)%list
      by (rewrite <- app_assoc; reflexivity).
    destruct (IH (lg ++ [(elapsed s, c)])%list F) as [I1 I2].
    rewrite I1, I2, shown_snoc, transmissions_snoc.
    destruct c; try discriminate Fc; cbn [is_SerWrite]; rewrite !app_nil_r;
      split; reflexivity.
Qed.

(** X6.  The button callbacks reach no device but the two LEDs.  Through
    any sequence of presses, every command that is issued is a command
    to an LED; nothing is put on the display, nothing is written on the
    serial port, the clock is not read and the stop flag is not
    touched. *)
Theorem buttons_only_command_leds :
  forall debug hw bs s,
    let s' := exec (run_events debug hw (map Pressed bs)) s in
    only_leds s s' /\
    shown (log s') = shown (log s) /\
    transmissions (log s') = transmissions (log s).
Proof.
  intros debug hw bs s s'.
  assert (K : only_leds s s').
  { subst s'. revert s. change (keeps only_leds (run_events debug hw (map Pressed bs))).
    induction bs as [|b bs IH]; cbn [map run_events].
    - intros s. apply only_leds_refl.
    - pose proof (only_leds_callback debug hw b).
      cbn [dispatch]. keeps_walk only_leds_refl only_leds_trans. }
  split; [ exact K | ]. apply only_leds_shown. exact K.
Qed.

Lemma thermostat_untouched_refl s : thermostat_untouched s s.
Proof. repeat split. Qed.

Lemma thermostat_untouched_trans a b c :
  thermostat_untouched a b -> thermostat_untouched b c -> thermostat_untouched a c.
Proof. unfold thermostat_untouched. intuition congruence. Qed.

Lemma thermostat_untouched_tick debug hw l :
  keeps thermostat_untouched (tick debug hw l).
Proof.
  assert (forall c, keeps thermostat_untouched (emit c)) by (intros c s; repeat split).
  assert (forall x, keeps thermostat_untouched (print x)) by (intros x s; repeat split).
  assert (keeps thermostat_untouched (thSensor_temperature hw)).
  { intros s. unfold exec, thSensor_temperature.
    destruct (temperature hw (reads s)); repeat split. }
  assert (keeps thermostat_untouched (datetime_now hw)) by (intros s; repeat split).
  assert (forall d, keeps thermostat_untouched (ser_write hw d)).
  { intros d s. unfold exec, ser_write.
    destruct (write_ok hw (writes s)); repeat split. }
  unfold tick, setup_line_2, update_server, setupSerialOutput, updateScreen,
    updateLights, getFahrenheit, redLight_off, blueLight_off, redLight_on,
    redLight_pulse, blueLight_on, blueLight_pulse.
  keeps_walk thermostat_untouched_refl thermostat_untouched_trans;
    apply (keeps_modify _); intros ?; repeat split.
Qed.

Lemma tally_app a b st sp :
  tally (a ++ b) st sp = tally b (fst (tally a st sp)) (snd (tally a st sp)).
Proof.
  unfold tally, presses. cbn [fst snd].
  rewrite !filter_app, !length_app, !Nat2Z.inj_add.
  f_equal; [ | lia ].
  rewrite Nat.add_comm. apply Nat.iter_add.
Qed.

Lemma dispatch_tally debug hw e s :
  let s' := exec (dispatch debug hw e) s in
  (current_state s', setPoint s') =
    tally (pressed_in [e]) (current_state s) (setPoint s) /\
  endDisplay s' = endDisplay s || is_interrupt e /\
  elapsed s' = elapsed s.
Proof.
  destruct e as [b|]; cbn [dispatch pressed_in flat_map is_interrupt app].
  - destruct (only_leds_callback debug hw b s) as (E1 & E2 & _).
    cbv zeta. rewrite E1, E2, orb_false_r. split; [ | split; reflexivity ].
    unfold tally, presses. destruct b; cbn [filter Button_eqb List.length Nat.iter nat_rect].
    + rewrite current_state_after_green, setPoint_after_green. f_equal. cbn. lia.
    + rewrite (current_state_after_setpoint_button debug hw redButton s)
        by discriminate.
      rewrite (proj1 (setPoint_after_setpoint_button debug hw s)). f_equal. cbn. lia.
    + rewrite (current_state_after_setpoint_button debug hw blueButton s)
        by discriminate.
      rewrite (proj2 (setPoint_after_setpoint_button debug hw s)). f_equal. cbn. lia.
  - cbv zeta. rewrite orb_true_r. split; [ | split; reflexivity ].
    unfold tally. cbn. f_equal. lia.
Qed.

Lemma pressed_in_app a b :
  pressed_in (a ++ b) = (pressed_in a ++ pressed_in b)%list.
Proof. apply flat_map_app. Qed.

Lemma run_events_step debug hw e es s :
  exec (run_events debug hw (e :: es)) s =
  exec (run_events debug hw es) (exec (dispatch debug hw e) s).
Proof. reflexivity. Qed.

Lemma run_events_tally debug hw es :
  forall s,
    let s' := exec (run_events debug hw es) s in
    (current_state s', setPoint s') =
      tally (pressed_in es) (current_state s) (setPoint s) /\
    endDisplay s' = endDisplay s || existsb is_interrupt es /\
    elapsed s' = elapsed s.
Proof.
  induction es as [|e es IH]; intros s.
  - cbv zeta. cbn [existsb]. rewrite orb_false_r. split; [ | split; reflexivity ].
    unfold tally. cbn. f_equal. lia.
  - cbv zeta. rewrite run_events_step.
    destruct (IH (exec (dispatch debug hw e) s)) as (I1 & I2 & I3).
    destruct (dispatch_tally debug hw e s) as (D1 & D2 & D3).
    rewrite I1, I2, I3, D2, D3.
    change (e :: es) with ([e] ++ es)%list.
    rewrite pressed_in_app, tally_app, existsb_app, <- D1.
    cbn [fst snd existsb]. rewrite orb_false_r, orb_assoc. repeat split.
Qed.

Lemma events_from_S hw t n :
  events_from hw t (S n) = (events hw t ++ events_from hw (S t) n)%list.
Proof. reflexivity. Qed.

Lemma while_loop_S debug hw fuel l s :
  exec (while_loop debug hw (S fuel) l) s =
  if endDisplay s then exec (cleanupDisplay ;; ret Returned) s
  else exec (l' <- loop_body debug hw l ;; while_loop debug hw fuel l') s.
Proof.
  unfold exec. cbn [while_loop]. unfold bind at 1. cbn [gets].
  destruct (endDisplay s); reflexivity.
Qed.

(** An iteration followed by [k]: either [tick] raises, or the events
    of the sleep run, a second elapses and [k] goes on. *)
Lemma loop_body_then {A} debug hw l s (k : Locals -> M A) :
  exec (l' <- loop_body debug hw l ;; k l') s =
  match tick debug hw l s with
  | (Ok l1, s1) =>
      let s2 := exec (run_events debug hw (events hw (elapsed s1))) s1 in
      exec (k l1) (with_elapsed (S (elapsed s2)) s2)
  | (Raise e, s1) => s1
  end.
Proof.
  unfold exec, loop_body. unfold bind at 1. unfold bind at 1.
  destruct (tick debug hw l s) as [[l1|e] s1]; [ | reflexivity ].
  rewrite (bind_ok _ _ _ _ _ (sleep_run debug hw s1)). reflexivity.
Qed.

Lemma while_loop_tally debug hw fuel :
  forall l s,
    let s' := exec (while_loop debug hw fuel l) s in
    let es := events_from hw (elapsed s) (elapsed s' - elapsed s) in
    (elapsed s <= elapsed s')%nat /\
    (current_state s', setPoint s') =
      tally (pressed_in es) (current_state s) (setPoint s) /\
    endDisplay s' = endDisplay s || existsb is_interrupt es.
Proof.
  assert (Z0 : forall s s1 : Machine,
             thermostat_untouched s s1 ->
             (elapsed s <= elapsed s1)%nat /\
             (current_state s1, setPoint s1) =
               tally (pressed_in (events_from hw (elapsed s) (elapsed s1 - elapsed s)))
                 (current_state s) (setPoint s) /\
             endDisplay s1 =
               endDisplay s ||
               existsb is_interrupt
                 (events_from hw (elapsed s) (elapsed s1 - elapsed s))).
  { intros s s1 (U1 & U2 & U3 & U4). rewrite U1, U2, U3, U4, Nat.sub_diag.
    cbn [events_from seq map List.concat existsb pressed_in flat_map].
    rewrite orb_false_r. split; [ lia | ]. split; [ | reflexivity ].
    unfold tally. cbn. f_equal. lia. }
  induction fuel as [|fuel IH]; intros l s.
  - cbv zeta. apply Z0. apply thermostat_untouched_refl.
  - cbv zeta. rewrite while_loop_S.
    destruct (endDisplay s) eqn:He.
    + rewrite <- He. apply Z0. repeat split.
    + rewrite <- He.
      pose proof (thermostat_untouched_tick debug hw l s) as U.
      rewrite (loop_body_then debug hw l s (fun l' => while_loop debug hw fuel l')).
      unfold exec in U.
      destruct (tick debug hw l s) as [[l1|e] s1]; cbn [snd] in U.
      2:{ apply Z0. exact U. }
      set (s2 := exec (run_events debug hw (events hw (elapsed s1))) s1).
      specialize (IH l1 (with_elapsed (S (elapsed s2)) s2)).
      cbv zeta in IH.
      set (s' := exec (while_loop debug hw fuel l1)
                   (with_elapsed (S (elapsed s2)) s2)) in *.
      destruct (run_events_tally debug hw (events hw (elapsed s1)) s1)
        as (R1 & R2 & R3).
      fold s2 in R1, R2, R3.
      destruct U as (U1 & U2 & U3 & U4).
      cbn [elapsed current_state setPoint endDisplay with_elapsed] in IH.
      destruct IH as (I1 & I2 & I3).
      rewrite R3, U4 in *.
      replace (elapsed s' - elapsed s)%nat
        with (S (elapsed s' - S (elapsed s))) by lia.
      rewrite events_from_S, pressed_in_app, tally_app, existsb_app.
      rewrite <- U1, <- U2, <- R1. cbn [fst snd].
      split; [ lia | ]. split; [ exact I2 | ].
      rewrite I3, R2, U3, orb_assoc. reflexivity.
Qed.

(** X7.  The setpoint and the stop flag after any run of the display
    thread are decided by the buttons and by CTRL-C alone.  However
    long [manageMyDisplay] runs, and whether it is still running, has
    returned or has been ended by a failure of the sensor or of the
    serial port, the setpoint has moved by the presses of red minus
    those of blue during the sleeps that were reached, and the stop
    flag is set exactly when it was set before or CTRL-C arrived in one
    of these sleeps.  With a sensor that answers, the state is the one
    the run started in advanced once per press of the green button in
    these sleeps.  The loop itself changes none of the three. *)
Theorem state_follows_the_buttons :
  forall debug hw fuel s,
    let s' := exec (manageMyDisplay debug hw fuel) s in
    let es := events_from hw (elapsed s) (elapsed s' - elapsed s) in
    (elapsed s <= elapsed s')%nat /\
    setPoint s' = snd (tally (pressed_in es) (current_state s) (setPoint s)) /\
    endDisplay s' = endDisplay s || existsb is_interrupt es /\
    (sensor_ok hw ->
     current_state s' =
       fst (tally (pressed_in es) (current_state s) (setPoint s))).
Proof.
  intros debug hw fuel s. unfold manageMyDisplay.
  destruct (while_loop_tally debug hw fuel {| counter := 1; altCounter := 1 |} s)
    as (H1 & H2 & H3).
  cbv zeta. split; [ exact H1 | ].
  split; [ rewrite <- H2; reflexivity | ].
  split; [ exact H3 | ].
  intros _. rewrite <- H2. reflexivity.
Qed.

Lemma state_follows_the_buttons_witness :
  current_state (exec (manageMyDisplay DEBUG (green_at 1) 4) tsm) = heat.
Proof.
  exact (proj2 (proj2 (proj2
           (state_follows_the_buttons DEBUG (green_at 1) 4 tsm)))
           (fun n => ex_intro _ 68%float
                       (ex_intro _ 68 (conj eq_refl eq_refl)))).
Defined.

(** ** The width of the display *)

Lemma string_length_app (a b : string) :
  String.length (a ++ b) = (String.length a + String.length b)%nat.
Proof. induction a as [|c a IH]; cbn; [ reflexivity | rewrite IH; reflexivity ]. Qed.

Lemma string_app_assoc (a b c : string) : ((a ++ b) ++ c = a ++ b ++ c)%string.
Proof. induction a as [|x a IH]; cbn; [ reflexivity | rewrite IH; reflexivity ]. Qed.

Lemma Z_range_In lo hi z : lo <= z <= hi -> In z (Z_range lo hi).
Proof.
  intros H. unfold Z_range. apply in_map_iff.
  exists (Z.to_nat (z - lo)). split; [ lia | ]. apply in_seq. lia.
Qed.

Lemma two_digits_length n : (n < 100)%nat -> String.length (two_digits n) = 2%nat.
Proof.
  intros H.
  assert (A : forallb (fun i => (String.length (two_digits i) =? 2)%nat) (seq 0 100)
              = true) by (vm_compute; reflexivity).
  rewrite forallb_forall in A. apply Nat.eqb_eq, A, in_seq. lia.
Qed.

Lemma month_abbr_length m :
  (1 <= m <= 12)%nat -> String.length (month_abbr m) = 3%nat.
Proof.
  intros H.
  assert (A : forallb (fun i => (String.length (month_abbr i) =? 3)%nat) (seq 1 12)
              = true) by (vm_compute; reflexivity).
  rewrite forallb_forall in A. apply Nat.eqb_eq, A, in_seq. lia.
Qed.

Lemma state_line_width st sp :
  -9999 <= sp <= 9999 -> state_line_fits st sp = narrow_enough st sp.
Proof.
  intros H.
  assert (A : forallb (fun z =>
                forallb (fun x => Bool.eqb (state_line_fits x z) (narrow_enough x z))
                  [off; heat; cool])
                (Z_range (-9999) 9999) = true) by (vm_compute; reflexivity).
  rewrite forallb_forall in A. specialize (A sp (Z_range_In _ _ _ H)).
  rewrite forallb_forall in A. apply Bool.eqb_prop, A. destruct st; cbn; auto.
Qed.

Lemma strftime_width d :
  valid_datetime d ->
  exists line_1,
    strftime d = line_1 ++ newline /\ String.length line_1 = lcd_columns.
Proof.
  intros (Hm & Hd & Hh & Hmi & Hs). unfold strftime.
  exists (month_abbr (month d) ++ " " ++ two_digits (day d) ++ "  " ++
          two_digits (hour d) ++ ":" ++ two_digits (minute d) ++ ":" ++
          two_digits (second d)).
  split.
  - rewrite !string_app_assoc. reflexivity.
  - rewrite !string_length_app, (month_abbr_length _ Hm),
      !two_digits_length by lia.
    reflexivity.
Qed.

Lemma setup_line_2_state_line debug hw a s p s2 :
  6 <= a ->
  setup_line_2 debug hw a s = (Ok p, s2) ->
  fst p = "ST:" ++ id (current_state s) ++ " Set:" ++ str (setPoint s) ++ "F" /\
  shown (log s2) = shown (log s) /\
  elapsed s2 = elapsed s.
Proof.
  intros Ha H. unfold setup_line_2 in H.
  destruct (Z.ltb_spec a 6); [ lia | ].
  cbn [bind gets] in H. destruct (a + 1 >=? 11).
  - pose proof (only_leds_updateLights debug hw s) as K. unfold exec in K.
    destruct (updateLights debug hw s) as [[[]|e] s1] eqn:E; cbn [snd] in K.
    + rewrite (bind_ok _ _ _ _ _ E) in H. inversion H; subst.
      split; [ reflexivity | ].
      split; [ apply (only_leds_shown _ _ K) | apply K ].
    + rewrite (bind_raise _ _ _ _ _ E) in H. discriminate.
  - inversion H; subst. repeat split.
Qed.

Lemma tick_state_line debug hw l s l' s' :
  6 <= altCounter l ->
  tick debug hw l s = (Ok l', s') ->
  shown (log s') =
    (shown (log s) ++
     [(elapsed s,
       (strftime (now hw (clock_calls s)) ++
        "ST:" ++ id (current_state s) ++ " Set:" ++ str (setPoint s) ++ "F")%string)])%list.
Proof.
  intros Ha H. unfold tick in H.
  set (s0 := exec (if debug then print "Processing Display Info..." else ret tt) s)
    in *.
  assert (E0 : (if debug then print "Processing Display Info..." else ret tt) s
               = (Ok tt, s0)).
  { subst s0. destruct debug; reflexivity. }
  rewrite (bind_ok _ _ _ _ _ E0) in H.
  unfold bind at 1 in H. unfold datetime_now at 1 in H.
  set (s1 := with_clock_calls (S (clock_calls s0)) s0) in *.
  assert (F1 : clock_calls s0 = clock_calls s /\ elapsed s1 = elapsed s /\
               log s1 = log s /\ current_state s1 = current_state s /\
               setPoint s1 = setPoint s).
  { subst s1 s0. destruct debug; repeat split. }
  destruct F1 as (C0 & El1 & L1 & St1 & Sp1).
  destruct (setup_line_2 debug hw (altCounter l) s1) as [[p|e] s2] eqn:E2.
  2:{ rewrite (bind_raise _ _ _ _ _ E2) in H. discriminate. }
  rewrite (bind_ok _ _ _ _ _ E2) in H.
  destruct (setup_line_2_state_line debug hw _ _ _ _ Ha E2) as (Lp & Sh2 & El2).
  unfold updateScreen in H. unfold bind at 1 in H. unfold bind at 1 in H.
  cbn [emit modify fst snd] in H.
  match type of H with
  | bind _ _ ?s3 = _ =>
      pose proof (same_panel_update_server debug hw (counter l) s3) as P;
      unfold exec in P;
      destruct (update_server debug hw (counter l) s3) as [[c|e] s4] eqn:E4;
      [ rewrite (bind_ok _ _ _ _ _ E4) in H
      | rewrite (bind_raise _ _ _ _ _ E4) in H; discriminate ]
  end.
  inversion H; subst s'. cbn [snd] in P. destruct P as (P1 & _).
  rewrite P1. cbn [log with_log elapsed].
  rewrite !shown_snoc, app_nil_r, Sh2, L1, El2, El1, C0, Lp, St1, Sp1.
  reflexivity.
Qed.

(** X8.  The width of what the display gets in an iteration that shows
    the state.  The message has two lines.  The first, the date and the
    time, is as wide as the display, 16 columns.  The second,
    "ST:<state> Set:<setPoint>F", is no wider than the display exactly
    when the setpoint has at most three characters in states heat and
    cool (from -99 to 999) and at most four in state off (from -999):
    outside these the line is longer than the display is wide.  Stated
    for setpoints of up to four digits. *)
Theorem state_line_width_on_display :
  forall debug hw l s l' s',
    tick debug hw l s = (Ok l', s') ->
    6 <= altCounter l ->
    valid_datetime (now hw (clock_calls s)) ->
    -9999 <= setPoint s <= 9999 ->
    exists line_1 line_2,
      shown (log s') =
        (shown (log s) ++
         [(elapsed s, (line_1 ++ newline ++ line_2)%string)])%list /\
      String.length line_1 = lcd_columns /\
      ((String.length line_2 <= lcd_columns)%nat <->
       narrow_enough (current_state s) (setPoint s) = true).
Proof.
  intros debug hw l s l' s' H Ha Hd Hsp.
  destruct (strftime_width _ Hd) as (line_1 & E1 & W1).
  exists line_1,
    ("ST:" ++ id (current_state s) ++ " Set:" ++ str (setPoint s) ++ "F").
  split; [ | split; [ exact W1 | ] ].
  - rewrite (tick_state_line debug hw l s l' s' Ha H), E1, string_app_assoc.
    reflexivity.
  - rewrite <- (state_line_width _ _ Hsp). unfold state_line_fits.
    symmetry. apply Nat.leb_le.
Qed.

Lemma state_line_width_on_display_witness :
  exists line_1 line_2,
    shown (log (exec (tick DEBUG (steady 20%float)
                        {| counter := 1; altCounter := 6 |})
                  (with_setPoint 1000 (with_current_state heat tsm)))) =
      [(0%nat, (line_1 ++ newline ++ line_2)%string)] /\
    String.length line_1 = 16%nat /\
    ((String.length line_2 <= 16)%nat <-> false = true).
Proof.
  exact (state_line_width_on_display DEBUG (steady 20%float)
           {| counter := 1; altCounter := 6 |}
           (with_setPoint 1000 (with_current_state heat tsm))
           {| counter := 2; altCounter := 7 |}
           (exec (tick DEBUG (steady 20%float)
                    {| counter := 1; altCounter := 6 |})
              (with_setPoint 1000 (with_current_state heat tsm)))
           eq_refl ltac:(cbn; lia)
           ltac:(unfold valid_datetime; cbn; lia)
           ltac:(cbn; lia)).
Defined.

(** ** What [DEBUG] decides *)

Lemma alike_refl s : alike s s.
Proof. repeat split. Qed.

Lemma alike_sym a b : alike a b -> alike b a.
Proof. unfold alike. intuition congruence. Qed.

Lemma alike_trans a b c : alike a b -> alike b c -> alike a c.
Proof. unfold alike. intuition congruence. Qed.

Lemma sim_ret {A} (a : A) : sim (ret a) (ret a).
Proof. intros s1 s2 H. split; [ reflexivity | exact H ]. Qed.

Lemma sim_raise {A} (e : Exn) : sim (@raise A e) (raise e).
Proof. intros s1 s2 H. split; [ reflexivity | exact H ]. Qed.

Lemma sim_floor x : sim (floor x) (floor x).
Proof. unfold floor. destruct (PyFloat.floor x); [ apply sim_raise | apply sim_ret ]. Qed.

Lemma sim_gets {A} (f : Machine -> A) :
  (forall s1 s2, alike s1 s2 -> f s1 = f s2) -> sim (gets f) (gets f).
Proof. intros Hf s1 s2 H. split; [ cbn; rewrite (Hf _ _ H); reflexivity | exact H ]. Qed.

Lemma sim_modify (f : Machine -> Machine) :
  (forall s1 s2, alike s1 s2 -> alike (f s1) (f s2)) -> sim (modify f) (modify f).
Proof. intros Hf s1 s2 H. split; [ reflexivity | apply Hf, H ]. Qed.

Lemma sim_bind {A B} (c1 c2 : M A) (k1 k2 : A -> M B) :
  sim c1 c2 -> (forall a, sim (k1 a) (k2 a)) -> sim (bind c1 k1) (bind c2 k2).
Proof.
  intros Hc Hk s1 s2 H. unfold bind.
  destruct (Hc s1 s2 H) as [F G].
  destruct (c1 s1) as [[a1|e1] t1], (c2 s2) as [[a2|e2] t2]; cbn in F, G;
    try discriminate F.
  - inversion F; subst. apply Hk, G.
  - inversion F; subst. split; [ reflexivity | exact G ].
Qed.

Lemma sim_in_other_thread (c1 c2 : M unit) :
  sim c1 c2 -> sim (in_other_thread c1) (in_other_thread c2).
Proof. intros Hc s1 s2 H. split; [ reflexivity | apply (Hc s1 s2 H) ]. Qed.

Lemma sim_unseen (c1 c2 : M unit) : unseen c1 -> unseen c2 -> sim c1 c2.
Proof.
  intros H1 H2 s1 s2 H.
  destruct (H1 s1) as [F1 G1], (H2 s2) as [F2 G2].
  split; [ congruence | ].
  eapply alike_trans; [ apply alike_sym, G1 | ].
  eapply alike_trans; [ exact H | exact G2 ].
Qed.

Lemma unseen_ret : unseen (ret tt).
Proof. intros s. split; [ reflexivity | apply alike_refl ]. Qed.

Lemma unseen_print x : unseen (print x).
Proof. intros s. split; [ reflexivity | repeat split ]. Qed.

Lemma non_led_snoc lg t c :
  non_led (lg ++ [(t, c)]) =
  (non_led lg ++ (if is_led c then [] else [(t, c)]))%list.
Proof.
  unfold non_led. rewrite filter_app. cbn. destruct (is_led c); reflexivity.
Qed.

Lemma unseen_led c (f : Machine -> Machine) :
  is_led c = true ->
  (forall s, alike s (f s)) ->
  unseen (emit c ;; modify f).
Proof.
  intros Hc Hf s. split; [ reflexivity | ].
  unfold bind, emit, modify. cbn [fst snd].
  eapply alike_trans; [ | apply Hf ].
  repeat split. cbn. rewrite non_led_snoc, Hc, app_nil_r. reflexivity.
Qed.

Lemma unseen_bind (c : M unit) (k : unit -> M unit) :
  unseen c -> (forall a, unseen (k a)) -> unseen (bind c k).
Proof.
  intros Hc Hk s. unfold bind. destruct (Hc s) as [F G].
  destruct (c s) as [[[]|e] t]; cbn in F, G; [ | discriminate F ].
  destruct (Hk tt t) as [F' G']. split; [ exact F' | ].
  eapply alike_trans; [ exact G | exact G' ].
Qed.

Lemma unseen_gets_bind {A} (f : Machine -> A) (k : A -> M unit) :
  (forall a, unseen (k a)) -> unseen (bind (gets f) k).
Proof. intros Hk s. unfold bind, gets. apply Hk. Qed.

Lemma sim_emit c : sim (emit c) (emit c).
Proof.
  intros s1 s2 H. split; [ reflexivity | ].
  destruct H as (H1 & H2 & H3 & H4 & H5 & H6 & H7 & H8).
  repeat split; try assumption. cbn. rewrite !non_led_snoc, H7, H8. reflexivity.
Qed.

Lemma sim_debug_print (d1 d2 : bool) x :
  sim (if d1 then print x else ret tt) (if d2 then print x else ret tt).
Proof.
  apply sim_unseen; [ destruct d1 | destruct d2 ];
    first [ apply unseen_print | apply unseen_ret ].
Qed.

Ltac sim_step :=
  first
    [ assumption
    | match goal with |- sim _ _ => solve [auto 2] end
    | match goal with
      | |- sim (ret _) (ret _) => apply sim_ret
      | |- sim (raise _) (raise _) => apply sim_raise
      | |- sim (floor _ _ _) (floor _ _ _) => apply sim_floor
      | |- sim (floor _) (floor _) => apply sim_floor
      | |- sim (emit _) (emit _) => apply sim_emit
      | |- sim (if _ then print ?x else ret tt) (if _ then print ?x else ret tt) =>
          apply sim_debug_print
      | |- sim (bind _ _) (bind _ _) => apply sim_bind; [ | intros ? ]
      | |- sim (in_other_thread _) (in_other_thread _) =>
          apply sim_in_other_thread
      | |- sim (if ?b then _ else _) (if ?b then _ else _) => destruct b
      | |- sim (match ?x with _ => _ end) (match ?x with _ => _ end) => destruct x
      end ].

Ltac sim_walk := repeat sim_step.

Lemma sim_leds :
  sim redLight_off redLight_off /\ sim blueLight_off blueLight_off.
Proof.
  split; apply sim_unseen; apply unseen_led; try reflexivity;
    intros s; repeat split.
Qed.

Lemma sim_getFahrenheit hw : sim (getFahrenheit hw) (getFahrenheit hw).
Proof.
  unfold getFahrenheit. apply sim_bind; [ | intros t; apply sim_ret ].
  intros s1 s2 H. unfold thSensor_temperature.
  destruct H as (H1 & H2 & H3 & H4 & H5 & H6 & H7 & H8). rewrite H4.
  destruct (temperature hw (reads s2)); (split; [ reflexivity | ]);
    repeat split; cbn; congruence.
Qed.

Lemma unseen_match (d : bool) temp :
  unseen (if d then
            st <- gets current_state ;;
            print ("State: " ++ id st) ;;
            sp <- gets setPoint ;;
            print ("SetPoint: " ++ str sp) ;;
            print ("Temp: " ++ str temp) ;;
            st <- gets current_state ;;
            match st with
            | heat =>
                sp <- gets setPoint ;;
                if temp >=? sp then redLight_on else redLight_pulse
            | cool =>
                sp <- gets setPoint ;;
                if temp <=? sp then blueLight_on else blueLight_pulse
            | off => ret tt
            end
          else ret tt).
Proof.
  destruct d; [ | apply unseen_ret ].
  apply unseen_gets_bind; intros st.
  apply unseen_bind; [ apply unseen_print | intros _ ].
  apply unseen_gets_bind; intros sp.
  apply unseen_bind; [ apply unseen_print | intros _ ].
  apply unseen_bind; [ apply unseen_print | intros _ ].
  apply unseen_gets_bind; intros st'.
  destruct st'; [ apply unseen_ret | | ];
    apply unseen_gets_bind; intros sp';
    [ destruct (temp >=? sp') | destruct (temp <=? sp') ];
    apply unseen_led; try reflexivity; intros s; repeat split.
Qed.

Lemma sim_updateLights d1 d2 hw : sim (updateLights d1 hw) (updateLights d2 hw).
Proof.
  pose proof (sim_getFahrenheit hw).
  destruct sim_leds.
  unfold updateLights.
  apply sim_bind; [ assumption | intros f ].
  apply sim_bind; [ apply sim_floor | intros temp ].
  apply sim_bind; [ assumption | intros _ ].
  apply sim_bind; [ assumption | intros _ ].
  apply sim_unseen; apply unseen_match.
Qed.

Lemma sim_callback d1 d2 hw b : sim (callback d1 hw b) (callback d2 hw b).
Proof.
  pose proof (sim_updateLights d1 d2 hw).
  destruct sim_leds.
  assert (sim (gets current_state) (gets current_state)).
  { apply sim_gets. intros s1 s2 K. apply K. }
  assert (forall dst, sim (modify (with_current_state dst))
                          (modify (with_current_state dst))).
  { intros dst. apply sim_modify. unfold alike. cbn. intuition congruence. }
  assert (sim (modify (fun s => with_setPoint (setPoint s + 1) s))
              (modify (fun s => with_setPoint (setPoint s + 1) s))).
  { apply sim_modify. unfold alike. cbn. intuition congruence. }
  assert (sim (modify (fun s => with_setPoint (setPoint s - 1) s))
              (modify (fun s => with_setPoint (setPoint s - 1) s))).
  { apply sim_modify. unfold alike. cbn. intuition congruence. }
  destruct b; cbn [callback];
    unfold processTempStateButton, processTempIncButton, processTempDecButton,
      send_cycle, on_exit, on_enter, on_enter_heat, on_enter_cool, on_enter_off,
      on_exit_heat, on_exit_cool;
    sim_walk.
Qed.

Lemma sim_run_events d1 d2 hw es : sim (run_events d1 hw es) (run_events d2 hw es).
Proof.
  induction es as [|e es IH]; cbn [run_events]; [ apply sim_ret | ].
  apply sim_bind; [ | intros _; exact IH ].
  apply sim_in_other_thread. destruct e as [b|]; cbn [dispatch].
  - apply sim_callback.
  - unfold interrupt. apply sim_bind.
    + apply sim_unseen; apply unseen_print.
    + intros _. apply sim_modify. unfold alike. cbn. intuition congruence.
Qed.

Lemma sim_sleep d1 d2 hw : sim (sleep d1 hw) (sleep d2 hw).
Proof.
  unfold sleep. apply sim_bind.
  - apply sim_gets. intros s1 s2 K. f_equal. apply K.
  - intros es. apply sim_bind; [ apply sim_run_events | intros _ ].
    apply sim_modify. unfold alike. cbn. intuition congruence.
Qed.

Lemma sim_tick d1 d2 hw l : sim (tick d1 hw l) (tick d2 hw l).
Proof.
  pose proof (sim_updateLights d1 d2 hw).
  pose proof (sim_getFahrenheit hw).
  assert (sim (gets current_state) (gets current_state)).
  { apply sim_gets. intros s1 s2 K. apply K. }
  assert (sim (gets setPoint) (gets setPoint)).
  { apply sim_gets. intros s1 s2 K. apply K. }
  assert (sim (datetime_now hw) (datetime_now hw)).
  { intros s1 s2 K. unfold datetime_now. cbn [fst snd].
    destruct K as (K1 & K2 & K3 & K4 & K5 & K6 & K7 & K8). rewrite K6.
    split; [ reflexivity | repeat split; cbn; congruence ]. }
  assert (forall d, sim (ser_write hw d) (ser_write hw d)).
  { intros d s1 s2 K. unfold ser_write.
    assert (K' : alike (with_writes (S (writes s1)) s1) (with_writes (S (writes s2)) s2)).
    { unfold alike in *. cbn. intuition congruence. }
    destruct K as (K1 & K2 & K3 & K4 & K5 & K6 & K7 & K8). rewrite K5 in K' |- *.
    destruct (write_ok hw (writes s2)).
    - apply sim_emit. exact K'.
    - split; [ reflexivity | exact K' ]. }
  unfold tick, setup_line_2, update_server, setupSerialOutput, updateScreen.
  sim_walk.
Qed.

Lemma sim_while_loop d1 d2 hw fuel :
  forall l, sim (while_loop d1 hw fuel l) (while_loop d2 hw fuel l).
Proof.
  induction fuel as [|fuel IH]; intros l; cbn [while_loop]; [ apply sim_ret | ].
  apply sim_bind; [ apply sim_gets; intros s1 s2 K; apply K | intros stop ].
  destruct stop.
  - unfold cleanupDisplay. sim_walk.
  - unfold loop_body. apply sim_bind; [ | exact IH ].
    apply sim_bind; [ apply sim_tick | intros l1 ].
    apply sim_bind; [ apply sim_sleep | intros _; apply sim_ret ].
Qed.

Lemma shown_non_led lg : shown (non_led lg) = shown lg.
Proof.
  unfold shown, non_led. induction lg as [|[t c] lg IH]; [ reflexivity | ].
  cbn [filter flat_map snd fst]. destruct c; cbn [is_led negb flat_map snd fst app];
    rewrite IH; reflexivity.
Qed.

Lemma serial_non_led lg :
  filter (fun x => is_SerWrite (snd x)) (non_led lg) =
  filter (fun x => is_SerWrite (snd x)) lg.
Proof.
  unfold non_led. induction lg as [|[t c] lg IH]; [ reflexivity | ].
  cbn [filter snd]. destruct c; cbn [is_led negb filter snd is_SerWrite];
    rewrite IH; reflexivity.
Qed.

(** X9.  The constant [DEBUG] decides what is printed and what the LEDs
    do, and nothing else.  Run from the same state against the same
    world, the program with [DEBUG] on and the program with [DEBUG] off
    end the same way (both still running, both returned, or both ended
    by the same exception), after the same number of iterations, in the
    same state with the same setpoint and stop flag, having read the
    sensor and the clock as often, and having put the same messages on
    the display and written the same status lines on the serial port at
    the same times. *)
Theorem DEBUG_gates_console_and_leds_only :
  forall hw fuel s,
    let on := manageMyDisplay true hw fuel s in
    let off := manageMyDisplay false hw fuel s in
    fst on = fst off /\
    alike (snd on) (snd off) /\
    shown (log (snd on)) = shown (log (snd off)) /\
    filter (fun x => is_SerWrite (snd x)) (log (snd on)) =
      filter (fun x => is_SerWrite (snd x)) (log (snd off)).
Proof.
  intros hw fuel s on off.
  destruct (sim_while_loop true false hw fuel {| counter := 1; altCounter := 1 |}
              s s (alike_refl s)) as [F G].
  fold (manageMyDisplay true hw fuel) in F, G.
  fold (manageMyDisplay false hw fuel) in F, G.
  split; [ exact F | ]. split; [ exact G | ].
  destruct G as (_ & _ & _ & _ & _ & _ & _ & G).
  split.
  - rewrite <- (shown_non_led (log (snd on))), <- (shown_non_led (log (snd off))).
    subst on off. rewrite G. reflexivity.
  - rewrite <- (serial_non_led (log (snd on))), <- (serial_non_led (log (snd off))).
    subst on off. rewrite G. reflexivity.
Qed.

(** ** Releasing the display *)

Lemma same_releases_refl s : same_releases s s.
Proof. reflexivity. Qed.

Lemma same_releases_trans a b c :
  same_releases a b -> same_releases b c -> same_releases a c.
Proof. unfold same_releases. congruence. Qed.

Lemma releases_snoc lg t c :
  releases (lg ++ [(t, c)]) = (releases lg + (if is_deinit c then 1 else 0))%nat.
Proof.
  unfold releases. rewrite filter_app, length_app. cbn.
  destruct (is_deinit c); reflexivity.
Qed.

Lemma same_releases_emit c : is_deinit c = false -> keeps same_releases (emit c).
Proof.
  intros H s. unfold same_releases. cbn. rewrite releases_snoc, H. lia.
Qed.

Lemma same_releases_updateLights debug hw :
  keeps same_releases (updateLights debug hw).
Proof.
  pose proof (same_releases_emit RedOff eq_refl).
  pose proof (same_releases_emit RedOn eq_refl).
  pose proof (same_releases_emit RedPulse eq_refl).
  pose proof (same_releases_emit BlueOff eq_refl).
  pose proof (same_releases_emit BlueOn eq_refl).
  pose proof (same_releases_emit BluePulse eq_refl).
  assert (forall x, keeps same_releases (print x)) by (intros x s; reflexivity).
  assert (keeps same_releases (thSensor_temperature hw)).
  { intros s. unfold exec, thSensor_temperature.
    destruct (temperature hw (reads s)); reflexivity. }
  unfold updateLights, getFahrenheit, redLight_off, blueLight_off, redLight_on,
    redLight_pulse, blueLight_on, blueLight_pulse.
  keeps_walk same_releases_refl same_releases_trans;
    apply (keeps_modify _); intros ?; reflexivity.
Qed.

Lemma same_releases_tick debug hw l : keeps same_releases (tick debug hw l).
Proof.
  pose proof (same_releases_updateLights debug hw).
  pose proof (same_releases_emit LcdClear eq_refl).
  assert (forall m, keeps same_releases (emit (LcdMessage m))).
  { intros m. apply same_releases_emit. reflexivity. }
  assert (forall x, keeps same_releases (print x)) by (intros x s; reflexivity).
  assert (keeps same_releases (thSensor_temperature hw)).
  { intros s. unfold exec, thSensor_temperature.
    destruct (temperature hw (reads s)); reflexivity. }
  assert (keeps same_releases (datetime_now hw)) by (intros s; reflexivity).
  assert (forall d, keeps same_releases (ser_write hw d)).
  { intros d s. unfold exec, ser_write.
    destruct (write_ok hw (writes s)); [ | reflexivity ].
    unfold same_releases. cbn. rewrite releases_snoc. cbn. apply Nat.add_0_r. }
  unfold tick, setup_line_2, update_server, setupSerialOutput, updateScreen,
    getFahrenheit.
  keeps_walk same_releases_refl same_releases_trans.
Qed.

Lemma same_releases_sleep debug hw : keeps same_releases (sleep debug hw).
Proof.
  assert (E : forall es, keeps same_releases (run_events debug hw es)).
  { induction es as [|e es IH]; cbn [run_events].
    - intros s. reflexivity.
    - assert (keeps same_releases (dispatch debug hw e)).
      { destruct e as [b|]; cbn [dispatch].
        - pose proof (same_releases_updateLights debug hw).
          pose proof (same_releases_emit RedOff eq_refl).
          pose proof (same_releases_emit BlueOff eq_refl).
          assert (forall x, keeps same_releases (print x))
            by (intros x s; reflexivity).
          destruct b; cbn [callback];
            unfold processTempStateButton, processTempIncButton,
              processTempDecButton, send_cycle, on_exit, on_enter, on_enter_heat,
              on_enter_cool, on_enter_off, on_exit_heat, on_exit_cool,
              redLight_off, blueLight_off;
            keeps_walk same_releases_refl same_releases_trans;
            apply (keeps_modify _); intros ?; reflexivity.
        - intros s. reflexivity. }
      keeps_walk same_releases_refl same_releases_trans. }
  unfold sleep. keeps_walk same_releases_refl same_releases_trans.
  apply (keeps_modify _). intros ?. reflexivity.
Qed.

Lemma same_releases_loop_body debug hw l : keeps same_releases (loop_body debug hw l).
Proof.
  pose proof (same_releases_tick debug hw l).
  pose proof (same_releases_sleep debug hw).
  unfold loop_body. keeps_walk same_releases_refl same_releases_trans.
Qed.

Lemma while_loop_unfold debug hw fuel l s :
  while_loop debug hw (S fuel) l s =
  if endDisplay s then (cleanupDisplay ;; ret Returned) s
  else (l' <- loop_body debug hw l ;; while_loop debug hw fuel l') s.
Proof.
  cbn [while_loop]. unfold bind at 1. cbn [gets].
  destruct (endDisplay s); reflexivity.
Qed.

(** X10.  The lines of the display are released when the display thread
    returns, and at no other time.  A run of [manageMyDisplay] releases
    them once, at its end, if it returns; while the loop is running, and
    when a failure of the sensor or of the serial port has ended it,
    they are not released: the thread that died leaves the display
    uncleared and its lines held. *)
Theorem display_released_on_return_only :
  forall debug hw fuel s,
    let r := manageMyDisplay debug hw fuel s in
    releases (log (snd r)) =
      (releases (log s) +
       match fst r with Ok Returned => 1 | _ => 0 end)%nat.
Proof.
  intros debug hw fuel s. unfold manageMyDisplay. cbv zeta.
  generalize {| counter := 1; altCounter := 1 |}. revert s.
  induction fuel as [|fuel IH]; intros s l.
  - cbn. lia.
  - rewrite while_loop_unfold. destruct (endDisplay s).
    + cbn. rewrite !releases_snoc. cbn. lia.
    + unfold bind.
      pose proof (same_releases_loop_body debug hw l s) as K. unfold exec in K.
      destruct (loop_body debug hw l s) as [[l1|e] s1]; cbn [snd] in K.
      * rewrite IH, K. reflexivity.
      * cbn. rewrite K. lia.
Qed.
